(** * Salary Intelligence Pro ([jai.py]): a shallow embedding of the script

    [jai.py] is a Streamlit script: it fetches two pickled artifacts when
    they are missing, loads them, draws a form, and, when the form has been
    submitted with both names filled in, encodes three categorical fields,
    calls the classifier and renders the decoded label with a confidence
    gauge.

    The script is embedded as a computation over an explicit world (local
    files, the network, the random generator) that returns an outcome, the
    new world and the list of external calls it made, in order.  Floating
    point probabilities are represented by rationals. *)

From Stdlib Require Import ZArith QArith Lia.
From stdpp Require Import base option list strings gmap.

Local Open Scope string_scope.
Local Open Scope list_scope.
Local Open Scope Z_scope.

(** ** Python values and exceptions *)

(** The exceptions the script can meet.  [except Exception] catches all of
    them; the messages are kept short. *)
Inductive exn : Type :=
  | ValueError (msg : string)
  | KeyError (key : string)
  | IndexError
  | FileNotFoundError (path : string)
  | OSError (path : string)
  | UnpicklingError
  | ConnectionError (url : string)
  | ModelError (msg : string).

(** The result of a call that may raise. *)
Inductive result (A : Type) : Type :=
  | Ok (a : A)
  | Err (e : exn).
Arguments Ok {A} a.
Arguments Err {A} e.

Definition result_bind {A B} (r : result A) (k : A -> result B) : result B :=
  match r with
  | Ok a => k a
  | Err e => Err e
  end.

Fixpoint result_map {A B} (f : A -> result B) (xs : list A) : result (list B) :=
  match xs with
  | [] => Ok []
  | x :: xs' =>
      result_bind (f x) (fun y =>
      result_bind (result_map f xs') (fun ys => Ok (y :: ys)))
  end.

(** [xs[0]] *)
Definition item0 {A} (xs : list A) : result A :=
  match xs with
  | x :: _ => Ok x
  | [] => Err IndexError
  end.

(** A value handed to an encoder: a [str], or [None] (what [st.selectbox]
    returns when it has no options). *)
Definition pystr : Type := option string.

(** Truthiness of a [str]: only the empty string is falsy. *)
Definition truthy (s : string) : bool :=
  match s with
  | EmptyString => false
  | String _ _ => true
  end.

(** ** The label encoder *)

Module LabelEncoder.

(** Modelled from the spec: the encoder class itself (scikit-learn's
    [LabelEncoder], unpickled from [encoders.pkl]) is not part of the
    script.  It is "a named, fixed, ordered vocabulary mapping each known
    category string to a unique integer code, and the inverse mapping back
    to the string". *)
Record t : Type := Build { classes_ : list string }.

(** The position of [v] in the vocabulary. *)
Fixpoint index_of (v : string) (cs : list string) : option nat :=
  match cs with
  | [] => None
  | c :: cs' => if decide (c = v) then Some 0%nat else S <$> index_of v cs'
  end.

Definition unseen : exn := ValueError "y contains previously unseen labels".

(** Modelled from the spec: the code of a known value is its position in
    the vocabulary; "a value not in the vocabulary cannot be encoded - this
    is a hard error, not a default". *)
Definition encode1 (enc : t) (y : pystr) : result Z :=
  match y with
  | None => Err unseen
  | Some v =>
      match index_of v (classes_ enc) with
      | Some i => Ok (Z.of_nat i)
      | None => Err unseen
      end
  end.

(** Modelled from the spec: "the inverse mapping back to the string"; a
    code that is no position of the vocabulary is an error. *)
Definition decode1 (enc : t) (code : Z) : result string :=
  if 0 <=? code then
    match classes_ enc !! Z.to_nat code with
    | Some v => Ok v
    | None => Err unseen
    end
  else Err unseen.

(** Modelled from the spec: [enc.transform(ys)], each value encoded in
    turn. *)
Definition transform (enc : t) (ys : list pystr) : result (list Z) :=
  result_map (encode1 enc) ys.

(** Modelled from the spec: [enc.inverse_transform(codes)], each code
    decoded in turn. *)
Definition inverse_transform (enc : t) (codes : list Z) : result (list string) :=
  result_map (decode1 enc) codes.

End LabelEncoder.

(** ** The classifier *)

(** The classifier is whatever [salary_model.pkl] unpickles to.  The script
    uses [predict], and [predict_proba] when [hasattr] finds it; both take
    the 2-D feature array and may raise. *)
Record Classifier : Type := {
  predict : list (list Z) -> result (list Z);
  predict_proba : option (list (list Z) -> result (list (list Q)))
}.

(** The larger of two rationals. *)
Definition q_max (a b : Q) : Q := if Qle_bool a b then b else a.

(** [ndarray.max()]: the largest entry of the whole array; an empty array
    raises. *)
Definition ndarray_max (rows : list (list Q)) : result Q :=
  match concat rows with
  | [] => Err (ValueError "zero-size array to reduction operation maximum")
  | p :: ps => Ok (foldl q_max p ps)
  end.

(** ** The world and the calls the script makes *)

Inductive event : Type :=
  | RequestsGet (url : string)
  | FileWrite (path : string) (content : list Byte.byte)
  | PickleLoad (path : string) (content : list Byte.byte)
  | StError (prefix : string) (e : exn)
  | StStatic (what : string)
  | EncoderTransform (key : string) (ys : list pystr)
  | EncoderInverse (key : string) (codes : list Z)
  | ModelPredict (X : list (list Z))
  | ModelPredictProba (X : list (list Z))
  | RandomUniform (low high : Q)
  | SummaryPanel (label colour background : string)
  | GaugeChart (value : Q)
  | PlaceholderPanel.

(** What the script runs against: the working directory, the network
    (the body served for a URL, [None] when [requests.get] raises), the
    objects a pickle decodes to, and numpy's global generator given by the
    sequence of its unit samples and the position reached in it. *)
Record World : Type := {
  fs : gmap string (list Byte.byte);
  writable : string -> bool;
  net : string -> option (list Byte.byte);
  unpickle_model : list Byte.byte -> option Classifier;
  unpickle_encoders : list Byte.byte -> option (gmap string LabelEncoder.t);
  random_sample : nat -> Q;
  rng_pos : nat
}.

Definition set_fs (f : gmap string (list Byte.byte)) (w : World) : World :=
  {| fs := f; writable := writable w; net := net w;
     unpickle_model := unpickle_model w;
     unpickle_encoders := unpickle_encoders w;
     random_sample := random_sample w; rng_pos := rng_pos w |}.

Definition set_rng_pos (n : nat) (w : World) : World :=
  {| fs := fs w; writable := writable w; net := net w;
     unpickle_model := unpickle_model w;
     unpickle_encoders := unpickle_encoders w;
     random_sample := random_sample w; rng_pos := n |}.

(** ** Script computations *)

(** A run ends normally, is halted by [st.stop()], or dies on an uncaught
    exception.  [st.stop()] is not an [Exception], so no handler of the
    script catches it. *)
Inductive outcome (A : Type) : Type :=
  | Done (a : A)
  | Stop
  | Raise (e : exn).
Arguments Done {A} a.
Arguments Stop {A}.
Arguments Raise {A} e.

Definition Script (A : Type) : Type := World -> outcome A * World * list event.

Definition out {A} (r : outcome A * World * list event) : outcome A := r.1.1.
Definition world {A} (r : outcome A * World * list event) : World := r.1.2.
Definition log {A} (r : outcome A * World * list event) : list event := r.2.

Definition script_ret {A} (a : A) : Script A := fun w => (Done a, w, []).

Definition script_bind {A B} (k : A -> Script B) (m : Script A) : Script B :=
  fun w =>
    match m w with
    | (Done a, w1, l1) =>
        match k a w1 with
        | (o, w2, l2) => (o, w2, l1 ++ l2)
        end
    | (Stop, w1, l1) => (Stop, w1, l1)
    | (Raise e, w1, l1) => (Raise e, w1, l1)
    end.

#[global] Instance script_mret : MRet Script := @script_ret.
#[global] Instance script_mbind : MBind Script := @script_bind.

(** [try: body except Exception as e: handler] *)
Definition try_except {A} (body : Script A) (handler : exn -> Script A) : Script A :=
  fun w =>
    match body w with
    | (Raise e, w1, l1) =>
        match handler e w1 with
        | (o, w2, l2) => (o, w2, l1 ++ l2)
        end
    | r => r
    end.

Definition emit (ev : event) : Script unit := fun w => (Done tt, w, [ev]).
Definition raise {A} (e : exn) : Script A := fun w => (Raise e, w, []).
Definition lift {A} (r : result A) : Script A :=
  match r with
  | Ok a => mret a
  | Err e => raise e
  end.

Definition st_stop {A} : Script A := fun w => (Stop, w, []).
Definition st_error (prefix : string) (e : exn) : Script unit :=
  emit (StError prefix e).
Definition st_static (what : string) : Script unit := emit (StStatic what).

(** [d[key]] on a dict with string keys *)
Definition dict_get {V} (d : gmap string V) (key : string) : Script V :=
  match d !! key with
  | Some v => mret v
  | None => raise (KeyError key)
  end.

(** ** Lines 11-21: fetching the artifacts *)

(** The file is in the working directory. *)
Definition present (path : string) (w : World) : bool :=
  bool_decide (is_Some (fs w !! path)).

Definition os_path_exists (path : string) : Script bool :=
  fun w => (Done (present path w), w, []).

Definition requests_get (url : string) : Script (list Byte.byte) :=
  fun w =>
    match net w url with
    | Some content => (Done content, w, [RequestsGet url])
    | None => (Raise (ConnectionError url), w, [RequestsGet url])
    end.

(** [with open(path, "wb") as f: f.write(content)] *)
Definition write_file (path : string) (content : list Byte.byte) : Script unit :=
  fun w =>
    if writable w path
    then (Done tt, set_fs (<[path := content]> (fs w)) w, [FileWrite path content])
    else (Raise (OSError path), w, []).

(** Line 12: the URL of a file on the drive. *)
Definition download_url (file_id : string) : string :=
  "https://drive.google.com/uc?export=download&id=" +:+ file_id.

Definition download_from_gdrive (file_id dest_path : string) : Script unit :=
  let url := download_url file_id in
  response ← requests_get url;
  write_file dest_path response.

Definition model_path : string := "salary_model.pkl".
Definition encoders_path : string := "encoders.pkl".
Definition model_file_id : string := "1lKCNINYN15kqu0gY-mSABLl0qljcZ47d".
Definition encoders_file_id : string := "1jZpsnreuGQLpTXGXJ-5KQrQpzpf-CNRi".

(** [if not os.path.exists(path): download_from_gdrive(file_id, path)],
    the block written once for each artifact (lines 17-18 and 20-21). *)
Definition fetch_if_absent (path file_id : string) : Script unit :=
  found ← os_path_exists path;
  if negb found then download_from_gdrive file_id path else mret tt.

Definition fetch_artifacts : Script unit :=
  fetch_if_absent model_path model_file_id;;
  fetch_if_absent encoders_path encoders_file_id.

(** ** Lines 26-31: loading the artifacts *)

(** [pickle.load(open(path, "rb"))], with the decoder for the expected
    kind of object. *)
Definition pickle_load {A} (decode : World -> list Byte.byte -> option A)
    (path : string) : Script A :=
  fun w =>
    match fs w !! path with
    | None => (Raise (FileNotFoundError path), w, [])
    | Some content =>
        match decode w content with
        | Some obj => (Done obj, w, [PickleLoad path content])
        | None => (Raise UnpicklingError, w, [PickleLoad path content])
        end
    end.

Definition load_artifacts : Script (Classifier * gmap string LabelEncoder.t) :=
  try_except
    (model ← pickle_load unpickle_model model_path;
     encoders ← pickle_load unpickle_encoders encoders_path;
     mret (model, encoders))
    (fun e => st_error "Error loading model or encoders: " e;; st_stop).

(** ** Lines 96-120: the form *)

(** What the user did in the browser before this run of the script: the
    texts typed, the values or the option indices picked ([None]: widget
    left alone), and whether the submit button was pressed. *)
Record Browser : Type := {
  typed_fname : string;
  typed_lname : string;
  typed_email : string;
  picked_experience : option Z;
  picked_age : option Z;
  picked_education : option nat;
  picked_occupation : option nat;
  picked_country : option nat;
  picked_hours : option Z;
  clicked : bool
}.

Module Widget.

(** Modelled from the spec: Streamlit's widgets are not part of the
    script.  The form has "first name (required, free text), last name
    (required, free text), email (free text, unvalidated)". *)
Definition text_input (typed : string) : string := typed.

(** Modelled from the spec: [st.slider(label, min_value, max_value, value)],
    "years of experience (integer 0-40)", "weekly hours (integer 10-80)";
    a value outside the range "is rejected by input constraints": the
    slider then keeps the value it was created with. *)
Definition slider (min_value max_value value : Z) (picked : option Z) : Z :=
  match picked with
  | Some v => if (min_value <=? v) && (v <=? max_value) then v else value
  | None => value
  end.

(** Modelled from the spec: [st.select_slider(label, options=options,
    value=value)], "age (integer 18-70)"; only one of the options can be
    picked. *)
Definition select_slider (options : list Z) (value : Z) (picked : option Z) : Z :=
  match picked with
  | Some v => if bool_decide (v ∈ options) then v else value
  | None => value
  end.

(** Modelled from the spec: [st.selectbox(label, options)], a "closed
    choice from encoder vocabulary": the first option until another one is
    picked, [None] when there is no option at all. *)
Definition selectbox (options : list string) (picked : option nat) : pystr :=
  match picked with
  | Some i =>
      match options !! i with
      | Some v => Some v
      | None => options !! 0%nat
      end
  | None => options !! 0%nat
  end.

(** Modelled from the spec: [st.form_submit_button(label)], the "submit
    action". *)
Definition form_submit_button (clicked : bool) : bool := clicked.

End Widget.

(** [range(a, b)] *)
Definition py_range (a b : Z) : list Z := seqZ a (b - a).

(** The variables the form block leaves behind.  The email field is drawn
    but not bound to a variable. *)
Record Form : Type := {
  fname : string;
  lname : string;
  experience : Z;
  age : Z;
  education : pystr;
  occupation : pystr;
  country : pystr;
  hours : Z;
  submitted : bool
}.

Definition profile_form (encoders : gmap string LabelEncoder.t) (b : Browser)
    : Script Form :=
  st_static "<div class='card'>";;
  st_static "Personal Profile";;
  let fname := Widget.text_input (typed_fname b) in
  let lname := Widget.text_input (typed_lname b) in
  let _ := Widget.text_input (typed_email b) in
  let experience := Widget.slider 0 40 5 (picked_experience b) in
  let age := Widget.select_slider (py_range 18 71) 35 (picked_age b) in
  enc ← dict_get encoders "education";
  let education := Widget.selectbox (LabelEncoder.classes_ enc) (picked_education b) in
  enc ← dict_get encoders "occupation";
  let occupation := Widget.selectbox (LabelEncoder.classes_ enc) (picked_occupation b) in
  enc ← dict_get encoders "native-country";
  let country := Widget.selectbox (LabelEncoder.classes_ enc) (picked_country b) in
  let hours := Widget.slider 10 80 40 (picked_hours b) in
  let submitted := Widget.form_submit_button (clicked b) in
  st_static "</div>";;
  mret {| fname := fname; lname := lname; experience := experience; age := age;
          education := education; occupation := occupation; country := country;
          hours := hours; submitted := submitted |}.

(** ** Lines 124-199: the result column *)

(** [encoders[key].transform([value])[0]] *)
Definition encode_field (encoders : gmap string LabelEncoder.t) (key : string)
    (value : pystr) : Script Z :=
  enc ← dict_get encoders key;
  emit (EncoderTransform key [value]);;
  lift (result_bind (LabelEncoder.transform enc [value]) item0).

(** Lines 125-131 *)
Definition encode_fields (encoders : gmap string LabelEncoder.t) (f : Form)
    : Script (Z * Z * Z) :=
  try_except
    (edu_enc ← encode_field encoders "education" (education f);
     occ_enc ← encode_field encoders "occupation" (occupation f);
     nat_enc ← encode_field encoders "native-country" (country f);
     mret (edu_enc, occ_enc, nat_enc))
    (fun e => st_error "Encoding error: " e;; st_stop).

(** [np.random.uniform(low, high)]: [low + (high - low) * random_sample()] *)
Definition np_random_uniform (low high : Q) : Script Q :=
  fun w =>
    let u := random_sample w (rng_pos w) in
    (Done (low + (high - low) * u)%Q, set_rng_pos (S (rng_pos w)) w,
     [RandomUniform low high]).

(** Lines 135-143 *)
Definition classify (model : Classifier) (features : list (list Z))
    : Script (Z * Q) :=
  try_except
    (emit (ModelPredict features);;
     prediction ← lift (result_bind (predict model features) item0);
     confidence ←
       match predict_proba model with
       | Some proba =>
           emit (ModelPredictProba features);;
           lift (result_bind (proba features) ndarray_max)
       | None => np_random_uniform (85 # 100) (97 # 100)
       end;
     mret (prediction, confidence))
    (fun e => st_error "Prediction error: " e;; st_stop).

(** [encoders['income'].inverse_transform([prediction])[0]] *)
Definition decode_label (encoders : gmap string LabelEncoder.t) (prediction : Z)
    : Script string :=
  enc ← dict_get encoders "income";
  emit (EncoderInverse "income" [prediction]);;
  lift (result_bind (LabelEncoder.inverse_transform enc [prediction]) item0).

(** The local variables of the prediction step. *)
Record Prediction : Type := {
  features : list (list Z);
  prediction : Z;
  confidence : Q;
  label : string
}.

(** Lines 125-145: encode, assemble, infer, confidence, decode. *)
Definition predict_income (model : Classifier)
    (encoders : gmap string LabelEncoder.t) (f : Form) : Script Prediction :=
  '(edu_enc, occ_enc, nat_enc) ← encode_fields encoders f;
  let features := [[edu_enc; occ_enc; nat_enc; hours f]] in
  '(prediction, confidence) ← classify model features;
  label ← decode_label encoders prediction;
  mret {| features := features; prediction := prediction;
          confidence := confidence; label := label |}.

(** Lines 148-191: the summary and the gauge. *)
Definition render_result (p : Prediction) : Script unit :=
  let high := bool_decide (label p = ">50K") in
  emit (SummaryPanel (label p)
          (if high then "#34d399" else "#fbbf24")
          (if high then "#064e3b" else "#78350f"));;
  emit (GaugeChart (confidence p * 100)%Q).

Definition right_column (model : Classifier)
    (encoders : gmap string LabelEncoder.t) (f : Form) : Script unit :=
  if submitted f && truthy (fname f) && truthy (lname f) then
    p ← predict_income model encoders f;
    render_result p
  else
    emit PlaceholderPanel.

(** Lines 202-209 *)
Definition footer : Script unit :=
  st_static "---";;
  st_static "Model Insights";;
  st_static "- **Education Impact** ...".

(** ** The whole script *)

(** Lines 17-31 *)
Definition startup : Script (Classifier * gmap string LabelEncoder.t) :=
  fetch_artifacts;;
  load_artifacts.

Definition jai (b : Browser) : Script unit :=
  '(model, encoders) ← startup;
  st_static "set_page_config";;
  st_static "<style>";;
  f ← profile_form encoders b;
  right_column model encoders f;;
  footer.

(** ** Vocabulary used in the statements *)

Definition outcome_map {A B} (g : A -> B) (o : outcome A) : outcome B :=
  match o with
  | Done a => Done (g a)
  | Stop => Stop
  | Raise e => Raise e
  end.

(** The classifier's probability estimates are probabilities. *)
Definition probabilistic (model : Classifier) : Prop :=
  forall proba X rows row p,
    predict_proba model = Some proba -> proba X = Ok rows ->
    row ∈ rows -> p ∈ row -> (0 <= p <= 1)%Q.

(** The generator's unit samples lie in [[0, 1)]. *)
Definition unit_samples (w : World) : Prop :=
  forall n, (0 <= random_sample w n)%Q /\ (random_sample w n < 1)%Q.

(** [v] is in the vocabulary of the encoder. *)
Definition known (enc : LabelEncoder.t) (v : pystr) : Prop :=
  exists s, v = Some s /\ s ∈ LabelEncoder.classes_ enc.

Definition is_download (file_id : string) (ev : event) : bool :=
  match ev with
  | RequestsGet url => bool_decide (url = download_url file_id)
  | _ => false
  end.

(** How many times the log asks the network for the artifact. *)
Definition download_attempts (file_id : string) (l : list event) : nat :=
  length (List.filter (is_download file_id) l).

(** The calls of the prediction step: encoders, classifier, generator, and
    the error message. *)
Definition inference_event (ev : event) : Prop :=
  match ev with
  | EncoderTransform _ _ | EncoderInverse _ _ | ModelPredict _
  | ModelPredictProba _ | RandomUniform _ _ | StError _ _ => True
  | _ => False
  end.

(** ** Sample artifacts

    A small set of encoders, two classifiers (with and without
    [predict_proba]) and a world to run the script in. *)

Definition sample_encoders : gmap string LabelEncoder.t :=
  <["education" := LabelEncoder.Build ["Bachelors"; "HS-grad"; "Masters"]]>
  (<["occupation" := LabelEncoder.Build ["Exec-managerial"; "Sales"]]>
  (<["native-country" := LabelEncoder.Build ["India"; "United-States"]]>
  (<["income" := LabelEncoder.Build ["<=50K"; ">50K"]]> ∅))).

Definition sample_predict (X : list (list Z)) : result (list Z) :=
  Ok (map (fun row => if 40 <? nth 3 row 0 then 1 else 0) X).

Definition sample_model : Classifier :=
  {| predict := sample_predict;
     predict_proba := Some (fun _ => Ok [[(1 # 4)%Q; (3 # 4)%Q]]) |}.

Definition sample_model_no_proba : Classifier :=
  {| predict := sample_predict; predict_proba := None |}.

Definition sample_world : World :=
  {| fs := ∅;
     writable := fun _ => true;
     net := fun _ => Some [];
     unpickle_model := fun _ => Some sample_model;
     unpickle_encoders := fun _ => Some sample_encoders;
     random_sample := fun n => (1 # Pos.of_succ_nat (S n))%Q;
     rng_pos := 0 |}.

(** The same world after a first run: both files are in place. *)
Definition sample_world_cached : World :=
  set_fs (<[model_path := [Byte.x80; Byte.x04]]>
          (<[encoders_path := [Byte.x80; Byte.x04; Byte.x95]]> ∅)) sample_world.

Definition sample_browser : Browser :=
  {| typed_fname := "Ada"; typed_lname := "Lovelace"; typed_email := "";
     picked_experience := None; picked_age := None;
     picked_education := Some 2%nat; picked_occupation := None;
     picked_country := Some 1%nat; picked_hours := Some 45;
     clicked := true |}.

Definition sample_browser_other : Browser :=
  {| typed_fname := "Grace"; typed_lname := "Hopper";
     typed_email := "grace@navy.mil";
     picked_experience := Some 20; picked_age := Some 60;
     picked_education := Some 2%nat; picked_occupation := None;
     picked_country := Some 1%nat; picked_hours := Some 45;
     clicked := true |}.

Definition sample_form_other : Form :=
  {| fname := "Grace"; lname := "Hopper"; experience := 20; age := 60;
     education := Some "Masters"; occupation := Some "Exec-managerial";
     country := Some "United-States"; hours := 45; submitted := true |}.

Definition sample_form : Form :=
  {| fname := "Ada"; lname := "Lovelace"; experience := 5; age := 35;
     education := Some "Masters"; occupation := Some "Exec-managerial";
     country := Some "United-States"; hours := 45; submitted := true |}.

(** A form whose education is in no vocabulary, one without a first name,
    and a browser that asks the hours slider for 200. *)
Definition sample_form_unknown : Form :=
  {| fname := "Ada"; lname := "Lovelace"; experience := 5; age := 35;
     education := Some "Kindergarten"; occupation := Some "Sales";
     country := Some "India"; hours := 45; submitted := true |}.

Definition sample_form_unnamed : Form :=
  {| fname := ""; lname := "Lovelace"; experience := 5; age := 35;
     education := Some "Masters"; occupation := Some "Sales";
     country := Some "India"; hours := 45; submitted := true |}.

Definition sample_browser_overtime : Browser :=
  {| typed_fname := "Ada"; typed_lname := "Lovelace"; typed_email := "";
     picked_experience := None; picked_age := None;
     picked_education := Some 2%nat; picked_occupation := None;
     picked_country := Some 1%nat; picked_hours := Some 200;
     clicked := true |}.

Definition sample_prediction : Prediction :=
  {| features := [[2; 0; 1; 45]]; prediction := 1;
     confidence := (3 # 4)%Q; label := ">50K" |}.

(** A first visit with the network down. *)
Definition sample_world_offline : World :=
  {| fs := ∅;
     writable := fun _ => true;
     net := fun _ => None;
     unpickle_model := fun _ => Some sample_model;
     unpickle_encoders := fun _ => Some sample_encoders;
     random_sample := fun n => (1 # Pos.of_succ_nat (S n))%Q;
     rng_pos := 0 |}.

(** Both files in place, the model file not a pickle. *)
Definition sample_world_corrupt : World :=
  {| fs := <[model_path := [Byte.x3c; Byte.x68]]>
           (<[encoders_path := [Byte.x80; Byte.x04; Byte.x95]]> ∅);
     writable := fun _ => true;
     net := fun _ => Some [];
     unpickle_model := fun _ => None;
     unpickle_encoders := fun _ => Some sample_encoders;
     random_sample := fun n => (1 # Pos.of_succ_nat (S n))%Q;
     rng_pos := 0 |}.

(** Classifiers that fail: one trained on another number of features, one
    that predicts a third class, one whose estimates come back empty. *)
Definition sample_model_mismatch : Classifier :=
  {| predict := fun _ => Err (ModelError "X has 4 features, but the model expects 5");
     predict_proba := None |}.

Definition sample_model_three_classes : Classifier :=
  {| predict := fun X => Ok (map (fun _ => 2) X);
     predict_proba := None |}.

Definition sample_model_empty_proba : Classifier :=
  {| predict := sample_predict; predict_proba := Some (fun _ => Ok []) |}.

(** The encoders without the one of the output label. *)
Definition sample_encoders_no_income : gmap string LabelEncoder.t :=
  delete "income" sample_encoders.

(** A form whose occupation is in no vocabulary. *)
Definition sample_form_unknown_occupation : Form :=
  {| fname := "Ada"; lname := "Lovelace"; experience := 5; age := 35;
     education := Some "Masters"; occupation := Some "Astronaut";
     country := Some "India"; hours := 45; submitted := true |}.

(** A browser in which nothing was done yet. *)
Definition sample_browser_idle : Browser :=
  {| typed_fname := "Ada"; typed_lname := "Lovelace"; typed_email := "";
     picked_experience := None; picked_age := None;
     picked_education := None; picked_occupation := None;
     picked_country := None; picked_hours := None;
     clicked := false |}.

(** ** Tactics *)

(** Membership in a list that is written out: to show it, and to go
    through its cases. *)
Ltac in_log := apply list_elem_of_In; simpl; auto 12.
Ltac log_cases H :=
  apply list_elem_of_In in H; simpl in H;
  repeat (destruct H as [H|H]; [try discriminate H|]); try contradiction.

(** ** Facts about the encoder *)

Lemma index_of_Some_lookup (v : string) (cs : list string) (i : nat) :
  LabelEncoder.index_of v cs = Some i -> cs !! i = Some v.
Proof.
  revert i. induction cs as [|c cs IH]; intros i; simpl; [discriminate|].
  destruct (decide (c = v)) as [->|Hne].
  - intros [= <-]. reflexivity.
  - destruct (LabelEncoder.index_of v cs) as [j|] eqn:Hj; simpl; [|discriminate].
    intros [= <-]. simpl. apply IH. reflexivity.
Qed.

Lemma index_of_elem (v : string) (cs : list string) :
  v ∈ cs -> is_Some (LabelEncoder.index_of v cs).
Proof.
  induction 1 as [v cs|v c cs _ IH]; simpl.
  - rewrite decide_True by reflexivity. eauto.
  - destruct (decide (c = v)); [eauto|].
    destruct IH as [j ->]. simpl. eauto.
Qed.

Lemma index_of_None (v : string) (cs : list string) :
  v ∉ cs -> LabelEncoder.index_of v cs = None.
Proof.
  intros Hv. destruct (LabelEncoder.index_of v cs) as [i|] eqn:Hi; [|reflexivity].
  exfalso. apply Hv. apply index_of_Some_lookup in Hi.
  apply list_elem_of_lookup. eauto.
Qed.

Lemma transform_singleton (enc : LabelEncoder.t) (v : pystr) :
  result_bind (LabelEncoder.transform enc [v]) item0 = LabelEncoder.encode1 enc v.
Proof.
  unfold LabelEncoder.transform. simpl.
  destruct (LabelEncoder.encode1 enc v); reflexivity.
Qed.

Lemma inverse_transform_singleton (enc : LabelEncoder.t) (code : Z) :
  result_bind (LabelEncoder.inverse_transform enc [code]) item0
  = LabelEncoder.decode1 enc code.
Proof.
  unfold LabelEncoder.inverse_transform. simpl.
  destruct (LabelEncoder.decode1 enc code); reflexivity.
Qed.

Lemma encode1_Ok_known (enc : LabelEncoder.t) (v : pystr) (code : Z) :
  LabelEncoder.encode1 enc v = Ok code -> known enc v.
Proof.
  unfold LabelEncoder.encode1. destruct v as [s|]; [|discriminate].
  destruct (LabelEncoder.index_of s (LabelEncoder.classes_ enc)) as [i|] eqn:Hi;
    [|discriminate].
  intros _. exists s. split; [reflexivity|].
  apply list_elem_of_lookup. exists i. by apply index_of_Some_lookup.
Qed.

Lemma encode1_Err_unseen (enc : LabelEncoder.t) (v : pystr) (e : exn) :
  LabelEncoder.encode1 enc v = Err e -> e = LabelEncoder.unseen.
Proof.
  unfold LabelEncoder.encode1. destruct v as [s|]; [|congruence].
  destruct (LabelEncoder.index_of s (LabelEncoder.classes_ enc)); congruence.
Qed.

Lemma encode1_unknown (enc : LabelEncoder.t) (v : pystr) :
  ~ known enc v -> LabelEncoder.encode1 enc v = Err LabelEncoder.unseen.
Proof.
  intros Hv. destruct (LabelEncoder.encode1 enc v) as [code|e] eqn:He.
  - by apply encode1_Ok_known in He.
  - by apply encode1_Err_unseen in He as ->.
Qed.

(** C1: for every value [v] of an encoder's vocabulary, [transform] gives a
    code and [inverse_transform] of that code gives [v] back. *)
Theorem encoder_round_trip (enc : LabelEncoder.t) (v : string) :
  v ∈ LabelEncoder.classes_ enc ->
  exists code : Z,
    result_bind (LabelEncoder.transform enc [Some v]) item0 = Ok code /\
    result_bind (LabelEncoder.inverse_transform enc [code]) item0 = Ok v.
Proof.
  intros Hv. destruct (index_of_elem _ _ Hv) as [i Hi].
  exists (Z.of_nat i). unfold LabelEncoder.transform, LabelEncoder.inverse_transform.
  simpl. rewrite Hi. simpl. split; [reflexivity|].
  unfold LabelEncoder.decode1.
  destruct (Z.leb_spec 0 (Z.of_nat i)) as [_|Hneg]; [|lia].
  rewrite Nat2Z.id, (index_of_Some_lookup _ _ _ Hi). reflexivity.
Qed.

Lemma encoder_round_trip_witness :
  exists code : Z,
    result_bind
      (LabelEncoder.transform (LabelEncoder.Build ["<=50K"; ">50K"]) [Some ">50K"])
      item0 = Ok code /\
    result_bind
      (LabelEncoder.inverse_transform (LabelEncoder.Build ["<=50K"; ">50K"]) [code])
      item0 = Ok ">50K".
Proof.
  apply (encoder_round_trip (LabelEncoder.Build ["<=50K"; ">50K"]) ">50K").
  in_log.
Defined.

(** ** The largest entry of an array *)

Lemma q_max_cases (a b : Q) :
  (q_max a b = b /\ (a <= b)%Q) \/ (q_max a b = a /\ (b <= a)%Q).
Proof.
  unfold q_max. destruct (Qle_bool a b) eqn:Hab.
  - left. split; [reflexivity|]. by apply Qle_bool_iff.
  - right. split; [reflexivity|].
    destruct (Qlt_le_dec b a) as [Hlt|Hle]; [by apply Qlt_le_weak|].
    apply Qle_bool_iff in Hle. congruence.
Qed.

Lemma foldl_q_max_elem (ps : list Q) (p : Q) : foldl q_max p ps ∈ p :: ps.
Proof.
  revert p. induction ps as [|q ps IH]; intros p; simpl; [left|].
  specialize (IH (q_max p q)).
  apply elem_of_cons in IH as [->|IH].
  - destruct (q_max_cases p q) as [[-> _]|[-> _]]; [right; left|left].
  - right. by right.
Qed.

Lemma foldl_q_max_ge_init (ps : list Q) (p : Q) : (p <= foldl q_max p ps)%Q.
Proof.
  revert p. induction ps as [|q ps IH]; intros p; simpl; [apply Qle_refl|].
  eapply Qle_trans; [|apply IH].
  destruct (q_max_cases p q) as [[-> ?]|[-> _]]; [done|apply Qle_refl].
Qed.

Lemma foldl_q_max_upper (ps : list Q) (p q : Q) :
  q ∈ p :: ps -> (q <= foldl q_max p ps)%Q.
Proof.
  revert p. induction ps as [|r ps IH]; intros p Hq; simpl.
  - apply list_elem_of_singleton in Hq as ->. apply Qle_refl.
  - apply elem_of_cons in Hq as [->|Hq].
    + eapply Qle_trans; [|apply foldl_q_max_ge_init].
      destruct (q_max_cases p r) as [[-> ?]|[-> _]]; [done|apply Qle_refl].
    + apply elem_of_cons in Hq as [->|Hq].
      * eapply Qle_trans; [|apply foldl_q_max_ge_init].
        destruct (q_max_cases p r) as [[-> _]|[-> ?]]; [apply Qle_refl|done].
      * apply IH. by right.
Qed.

Lemma ndarray_max_Ok (rows : list (list Q)) (c : Q) :
  ndarray_max rows = Ok c ->
  c ∈ concat rows /\ forall q, q ∈ concat rows -> (q <= c)%Q.
Proof.
  unfold ndarray_max. destruct (concat rows) as [|p ps]; [discriminate|].
  intros [= <-]. split; [apply foldl_q_max_elem|apply foldl_q_max_upper].
Qed.

Lemma uniform_range (u : Q) :
  (0 <= u)%Q -> (u < 1)%Q ->
  (85 # 100 <= (85 # 100) + ((97 # 100) - (85 # 100)) * u)%Q /\
  ((85 # 100) + ((97 # 100) - (85 # 100)) * u < 97 # 100)%Q.
Proof.
  destruct u as [a b]. unfold Qle, Qlt. simpl. intros H0 H1. split; nia.
Qed.

(** ** Running a script step by step *)

Lemma run_bind {A B} (m : Script A) (k : A -> Script B) (w : World) :
  (m ≫= k) w =
    match m w with
    | (Done a, w1, l1) =>
        match k a w1 with
        | (o, w2, l2) => (o, w2, l1 ++ l2)
        end
    | (Stop, w1, l1) => (Stop, w1, l1)
    | (Raise e, w1, l1) => (Raise e, w1, l1)
    end.
Proof. reflexivity. Qed.

Lemma run_ret {A} (a : A) (w : World) : (mret a : Script A) w = (Done a, w, []).
Proof. reflexivity. Qed.

Lemma run_lift {A} (r : result A) (w : World) :
  lift r w = match r with Ok a => (Done a, w, []) | Err e => (Raise e, w, []) end.
Proof. destruct r; reflexivity. Qed.

Lemma run_dict_get {V} (d : gmap string V) (key : string) (w : World) :
  dict_get d key w =
    match d !! key with
    | Some v => (Done v, w, [])
    | None => (Raise (KeyError key), w, [])
    end.
Proof. unfold dict_get. destruct (d !! key); reflexivity. Qed.

Lemma log_run {A} (o : outcome A) (w : World) (l : list event) : log (o, w, l) = l.
Proof. reflexivity. Qed.

Lemma log_bind_inv {A B} (m : Script A) (k : A -> Script B) (w : World) (ev : event) :
  ev ∈ log ((m ≫= k) w) ->
  ev ∈ log (m w) \/
  exists a w1 l1, m w = (Done a, w1, l1) /\ ev ∈ log (k a w1).
Proof.
  rewrite run_bind. destruct (m w) as [[[a| |e] w1] l1]; simpl; [|by left..].
  destruct (k a w1) as [[o w2] l2] eqn:Hk. unfold log at 1. simpl.
  intros [Hev|Hev]%elem_of_app; [by left|].
  right. exists a, w1, l1. split; [reflexivity|]. by rewrite Hk.
Qed.

Lemma take_calls_cases {A} (k : nat) (a b c : A) :
  take k [a; b; c] = [] \/ take k [a; b; c] = [a] \/
  take k [a; b; c] = [a; b] \/ take k [a; b; c] = [a; b; c].
Proof. destruct k as [|[|[|k]]]; simpl; rewrite ?take_nil; auto. Qed.

Lemma outcome_map_compose {A B C} (g : A -> B) (h : B -> C) (o : outcome A) :
  outcome_map h (outcome_map g o) = outcome_map (fun a => h (g a)) o.
Proof. by destruct o. Qed.

Lemma truthy_nonempty (s : string) : truthy s = true <-> s <> "".
Proof. destruct s; simpl; split; congruence. Qed.

(** ** The result column

    The classifier and the encoders are those loaded at start-up, fixed
    for the whole section. *)

Section ResultColumn.

Context (model : Classifier) (encoders : gmap string LabelEncoder.t).

(** One field is encoded without touching the world. *)
Lemma run_encode_field key v w :
  encode_field encoders key v w =
    match encoders !! key with
    | None => (Raise (KeyError key), w, [])
    | Some enc =>
        match LabelEncoder.encode1 enc v with
        | Ok code => (Done code, w, [EncoderTransform key [v]])
        | Err e => (Raise e, w, [EncoderTransform key [v]])
        end
    end.
Proof.
  unfold encode_field. rewrite run_bind, run_dict_get.
  destruct (encoders !! key) as [enc|]; [|reflexivity].
  rewrite run_bind. unfold emit. rewrite run_lift, transform_singleton.
  destruct (LabelEncoder.encode1 enc v); reflexivity.
Qed.

(** The two ways the encoding block can end, in whatever world it runs:
    three codes, or the error message after the calls made so far and
    [st.stop()]. *)
Lemma encode_fields_cases f :
  let calls := [EncoderTransform "education" [education f];
                EncoderTransform "occupation" [occupation f];
                EncoderTransform "native-country" [country f]] in
  (exists E1 E2 E3 e o n,
      encoders !! "education" = Some E1 /\
      encoders !! "occupation" = Some E2 /\
      encoders !! "native-country" = Some E3 /\
      LabelEncoder.encode1 E1 (education f) = Ok e /\
      LabelEncoder.encode1 E2 (occupation f) = Ok o /\
      LabelEncoder.encode1 E3 (country f) = Ok n /\
      forall w, encode_fields encoders f w = (Done (e, o, n), w, calls))
  \/
  (exists (k : nat) (e : exn),
      ((e = LabelEncoder.unseen /\ (1 <= k <= 3)%nat) \/
       (exists key, key ∈ ["education"; "occupation"; "native-country"] /\
                    e = KeyError key /\ encoders !! key = None)) /\
      forall w, encode_fields encoders f w
                = (Stop, w, take k calls ++ [StError "Encoding error: " e])).
Proof.
  intros calls.
  assert (Hrun : forall w, encode_fields encoders f w =
    match encoders !! "education" with
    | None => (Stop, w, take 0 calls ++ [StError "Encoding error: " (KeyError "education")])
    | Some E1 =>
      match LabelEncoder.encode1 E1 (education f) with
      | Err x => (Stop, w, take 1 calls ++ [StError "Encoding error: " x])
      | Ok e =>
        match encoders !! "occupation" with
        | None => (Stop, w, take 1 calls ++ [StError "Encoding error: " (KeyError "occupation")])
        | Some E2 =>
          match LabelEncoder.encode1 E2 (occupation f) with
          | Err x => (Stop, w, take 2 calls ++ [StError "Encoding error: " x])
          | Ok o =>
            match encoders !! "native-country" with
            | None => (Stop, w, take 2 calls
                                 ++ [StError "Encoding error: " (KeyError "native-country")])
            | Some E3 =>
              match LabelEncoder.encode1 E3 (country f) with
              | Err x => (Stop, w, take 3 calls ++ [StError "Encoding error: " x])
              | Ok n => (Done (e, o, n), w, calls)
              end
            end
          end
        end
      end
    end).
  { intros w. unfold encode_fields, try_except.
    rewrite run_bind, run_encode_field.
    destruct (encoders !! "education") as [E1|]; [|reflexivity].
    destruct (LabelEncoder.encode1 E1 (education f)); [|reflexivity].
    rewrite run_bind, run_encode_field.
    destruct (encoders !! "occupation") as [E2|]; [|reflexivity].
    destruct (LabelEncoder.encode1 E2 (occupation f)); [|reflexivity].
    rewrite run_bind, run_encode_field.
    destruct (encoders !! "native-country") as [E3|]; [|reflexivity].
    destruct (LabelEncoder.encode1 E3 (country f)); reflexivity. }
  destruct (encoders !! "education") as [E1|] eqn:H1;
    [|right; exists 0%nat, (KeyError "education"); split;
     [right; exists "education"; split; [in_log|done]|exact Hrun]].
  destruct (LabelEncoder.encode1 E1 (education f)) as [e|x] eqn:HE1;
    [|right; exists 1%nat, x; split;
     [left; split; [by eapply encode1_Err_unseen|lia]|exact Hrun]].
  destruct (encoders !! "occupation") as [E2|] eqn:H2;
    [|right; exists 1%nat, (KeyError "occupation"); split;
     [right; exists "occupation"; split; [in_log|done]|exact Hrun]].
  destruct (LabelEncoder.encode1 E2 (occupation f)) as [o|x] eqn:HE2;
    [|right; exists 2%nat, x; split;
     [left; split; [by eapply encode1_Err_unseen|lia]|exact Hrun]].
  destruct (encoders !! "native-country") as [E3|] eqn:H3;
    [|right; exists 2%nat, (KeyError "native-country"); split;
     [right; exists "native-country"; split; [in_log|done]|exact Hrun]].
  destruct (LabelEncoder.encode1 E3 (country f)) as [n|x] eqn:HE3;
    [|right; exists 3%nat, x; split;
     [left; split; [by eapply encode1_Err_unseen|lia]|exact Hrun]].
  left. exists E1, E2, E3, e, o, n. repeat split; done.
Qed.

Lemma run_classify X w :
  classify model X w =
    match result_bind (predict model X) item0 with
    | Err e => (Stop, w, [ModelPredict X; StError "Prediction error: " e])
    | Ok y =>
        match predict_proba model with
        | Some proba =>
            match result_bind (proba X) ndarray_max with
            | Ok c => (Done (y, c), w, [ModelPredict X; ModelPredictProba X])
            | Err e =>
                (Stop, w, [ModelPredict X; ModelPredictProba X;
                           StError "Prediction error: " e])
            end
        | None =>
            (Done (y, ((85 # 100) + ((97 # 100) - (85 # 100))
                                    * random_sample w (rng_pos w))%Q),
             set_rng_pos (S (rng_pos w)) w,
             [ModelPredict X; RandomUniform (85 # 100) (97 # 100)])
        end
    end.
Proof.
  unfold classify, try_except. rewrite run_bind. unfold emit.
  rewrite run_bind, run_lift.
  destruct (result_bind (predict model X) item0) as [y|e]; [|reflexivity].
  rewrite run_bind.
  destruct (predict_proba model) as [proba|]; [|reflexivity].
  rewrite run_bind, run_lift.
  destruct (result_bind (proba X) ndarray_max); reflexivity.
Qed.

Lemma run_decode_label y w :
  decode_label encoders y w =
    match encoders !! "income" with
    | None => (Raise (KeyError "income"), w, [])
    | Some enc =>
        match LabelEncoder.decode1 enc y with
        | Ok v => (Done v, w, [EncoderInverse "income" [y]])
        | Err e => (Raise e, w, [EncoderInverse "income" [y]])
        end
    end.
Proof.
  unfold decode_label. rewrite run_bind, run_dict_get.
  destruct (encoders !! "income") as [enc|]; [|reflexivity].
  rewrite run_bind. unfold emit. rewrite run_lift, inverse_transform_singleton.
  destruct (LabelEncoder.decode1 enc y); reflexivity.
Qed.

(** What a completed prediction step went through. *)
Lemma predict_income_Done f w p w' l :
  predict_income model encoders f w = (Done p, w', l) ->
  exists E1 E2 E3 E4 e o n,
    encoders !! "education" = Some E1 /\
    encoders !! "occupation" = Some E2 /\
    encoders !! "native-country" = Some E3 /\
    encoders !! "income" = Some E4 /\
    LabelEncoder.encode1 E1 (education f) = Ok e /\
    LabelEncoder.encode1 E2 (occupation f) = Ok o /\
    LabelEncoder.encode1 E3 (country f) = Ok n /\
    features p = [[e; o; n; hours f]] /\
    result_bind (predict model (features p)) item0 = Ok (prediction p) /\
    LabelEncoder.decode1 E4 (prediction p) = Ok (label p) /\
    match predict_proba model with
    | Some proba =>
        result_bind (proba (features p)) ndarray_max = Ok (confidence p) /\
        w' = w /\
        l = [EncoderTransform "education" [education f];
             EncoderTransform "occupation" [occupation f];
             EncoderTransform "native-country" [country f];
             ModelPredict (features p); ModelPredictProba (features p);
             EncoderInverse "income" [prediction p]]
    | None =>
        confidence p = ((85 # 100) + ((97 # 100) - (85 # 100))
                                     * random_sample w (rng_pos w))%Q /\
        w' = set_rng_pos (S (rng_pos w)) w /\
        l = [EncoderTransform "education" [education f];
             EncoderTransform "occupation" [occupation f];
             EncoderTransform "native-country" [country f];
             ModelPredict (features p); RandomUniform (85 # 100) (97 # 100);
             EncoderInverse "income" [prediction p]]
    end.
Proof.
  unfold predict_income. rewrite run_bind.
  destruct (encode_fields_cases f)
    as [(E1 & E2 & E3 & e & o & n & H1 & H2 & H3 & HE1 & HE2 & HE3 & ->)
       |(k & x & _ & ->)]; [|discriminate].
  rewrite run_bind, run_classify.
  set (X := [[e; o; n; hours f]]).
  destruct (result_bind (predict model X) item0) as [y|x] eqn:Hy; [|discriminate].
  destruct (predict_proba model) as [proba|] eqn:Hp.
  - destruct (result_bind (proba X) ndarray_max) as [c|x] eqn:Hc; [|discriminate].
    rewrite run_bind, run_decode_label.
    destruct (encoders !! "income") as [E4|] eqn:H4; [|discriminate].
    destruct (LabelEncoder.decode1 E4 y) as [v|x] eqn:Hv; [|discriminate].
    rewrite run_ret. intros [= <- <- <-]. simpl.
    exists E1, E2, E3, E4, e, o, n. repeat split; done.
  - rewrite run_bind, run_decode_label.
    destruct (encoders !! "income") as [E4|] eqn:H4; [|discriminate].
    destruct (LabelEncoder.decode1 E4 y) as [v|x] eqn:Hv; [|discriminate].
    rewrite run_ret. intros [= <- <- <-]. simpl.
    exists E1, E2, E3, E4, e, o, n. repeat split; done.
Qed.

(** C2: the confidence of a completed prediction lies in [[0, 1]], whether
    it is the largest estimate of a classifier whose estimates are
    probabilities or the value drawn from the generator. *)
Theorem confidence_in_unit_interval f w p w' l :
  probabilistic model ->
  unit_samples w ->
  predict_income model encoders f w = (Done p, w', l) ->
  (0 <= confidence p)%Q /\ (confidence p <= 1)%Q.
Proof.
  intros Hmodel Hrng Hrun.
  apply predict_income_Done in Hrun
    as (E1 & E2 & E3 & E4 & e & o & n & _ & _ & _ & _ & _ & _ & _ & _ & _ & _ & Hc).
  destruct (predict_proba model) as [proba|] eqn:Hp.
  - destruct Hc as (Hc & _ & _).
    destruct (proba (features p)) as [rows|] eqn:Hrows; [|discriminate].
    simpl in Hc. apply ndarray_max_Ok in Hc as [Hin _].
    apply list_elem_of_In, in_concat in Hin as (row & Hrow & Hq).
    apply list_elem_of_In in Hrow, Hq.
    exact (Hmodel proba (features p) rows row (confidence p) Hp Hrows Hrow Hq).
  - destruct Hc as (-> & _ & _).
    destruct (Hrng (rng_pos w)) as [H0 H1].
    destruct (uniform_range _ H0 H1) as [Hlo Hhi]. split.
    + eapply Qle_trans; [|exact Hlo]. discriminate.
    + apply Qlt_le_weak. eapply Qlt_le_trans; [exact Hhi|]. discriminate.
Qed.

(** C4: with [predict_proba] the confidence is the largest entry of the
    estimates returned for the feature vector; without it the confidence
    is [0.85 + 0.12 * u] for the next unit sample [u] of the generator,
    hence a value of [[0.85, 0.97)]. *)
Theorem confidence_source f w p w' l :
  predict_income model encoders f w = (Done p, w', l) ->
  match predict_proba model with
  | Some proba =>
      exists rows,
        proba (features p) = Ok rows /\
        confidence p ∈ concat rows /\
        forall q, q ∈ concat rows -> (q <= confidence p)%Q
  | None =>
      confidence p = ((85 # 100) + ((97 # 100) - (85 # 100))
                                   * random_sample w (rng_pos w))%Q /\
      (unit_samples w ->
       (85 # 100 <= confidence p)%Q /\ (confidence p < 97 # 100)%Q)
  end.
Proof.
  intros Hrun.
  apply predict_income_Done in Hrun
    as (E1 & E2 & E3 & E4 & e & o & n & _ & _ & _ & _ & _ & _ & _ & _ & _ & _ & Hc).
  destruct (predict_proba model) as [proba|].
  - destruct Hc as (Hc & _ & _).
    destruct (proba (features p)) as [rows|]; [|discriminate].
    exists rows. split; [reflexivity|]. by apply ndarray_max_Ok.
  - destruct Hc as (Hc & _ & _). split; [exact Hc|].
    intros Hrng. rewrite Hc.
    destruct (Hrng (rng_pos w)) as [H0 H1]. by apply uniform_range.
Qed.

(** C6: in a completed prediction the array given to the classifier has the
    single row (code of the education, code of the occupation, code of the
    country, weekly hours), and no other array is given to it. *)
Theorem feature_vector_order f w p w' l :
  predict_income model encoders f w = (Done p, w', l) ->
  exists E1 E2 E3 e o n,
    encoders !! "education" = Some E1 /\
    encoders !! "occupation" = Some E2 /\
    encoders !! "native-country" = Some E3 /\
    result_bind (LabelEncoder.transform E1 [education f]) item0 = Ok e /\
    result_bind (LabelEncoder.transform E2 [occupation f]) item0 = Ok o /\
    result_bind (LabelEncoder.transform E3 [country f]) item0 = Ok n /\
    features p = [[e; o; n; hours f]] /\
    ModelPredict [[e; o; n; hours f]] ∈ l /\
    forall X, ModelPredict X ∈ l \/ ModelPredictProba X ∈ l ->
              X = [[e; o; n; hours f]].
Proof.
  intros Hrun.
  apply predict_income_Done in Hrun
    as (E1 & E2 & E3 & E4 & e & o & n & H1 & H2 & H3 & _ & HE1 & HE2 & HE3
        & HX & _ & _ & Hc).
  exists E1, E2, E3, e, o, n. rewrite !transform_singleton, <- HX.
  repeat (split; [done|]).
  destruct (predict_proba model); destruct Hc as (_ & _ & ->).
  - split; [in_log|]. intros X [HX'|HX']; log_cases HX'; congruence.
  - split; [in_log|]. intros X [HX'|HX']; log_cases HX'; congruence.
Qed.

(** The world only matters through the sample drawn when the classifier
    has no [predict_proba]. *)
Lemma predict_income_worlds f w1 w2 :
  outcome_map (fun p => (features p, prediction p, label p))
    (out (predict_income model encoders f w1))
  = outcome_map (fun p => (features p, prediction p, label p))
      (out (predict_income model encoders f w2))
  /\ (is_Some (predict_proba model) ->
      out (predict_income model encoders f w1)
      = out (predict_income model encoders f w2)
      /\ log (predict_income model encoders f w1)
         = log (predict_income model encoders f w2)).
Proof.
  unfold predict_income. rewrite !run_bind.
  destruct (encode_fields_cases f)
    as [(E1 & E2 & E3 & e & o & n & _ & _ & _ & _ & _ & _ & Hrun)
       |(k & x & _ & Hrun)]; rewrite (Hrun w1), (Hrun w2); [|by split].
  rewrite !run_bind, !run_classify.
  destruct (result_bind (predict model [[e; o; n; hours f]]) item0) as [y|x];
    [|by split].
  destruct (predict_proba model) as [proba|].
  - destruct (result_bind (proba [[e; o; n; hours f]]) ndarray_max) as [c|x];
      [|by split].
    rewrite !run_bind, !run_decode_label.
    destruct (encoders !! "income") as [E4|]; [|by split].
    destruct (LabelEncoder.decode1 E4 y); by split.
  - rewrite !run_bind, !run_decode_label.
    destruct (encoders !! "income") as [E4|]; [|split; [done|by intros [? [=]]]].
    destruct (LabelEncoder.decode1 E4 y); (split; [done|by intros [? [=]]]).
Qed.

(** The prediction step reads four variables of the form only. *)
Lemma predict_income_fields f1 f2 w :
  education f1 = education f2 ->
  occupation f1 = occupation f2 ->
  country f1 = country f2 ->
  hours f1 = hours f2 ->
  predict_income model encoders f1 w = predict_income model encoders f2 w.
Proof.
  intros H1 H2 H3 H4. unfold predict_income, encode_fields.
  rewrite H1, H2, H3, H4. reflexivity.
Qed.

(** C3: for a fixed classifier, fixed encoders and fixed form values, two
    runs of the prediction step, in whatever worlds they start, end the same
    way with the same label; when the classifier has [predict_proba] they
    also give the same confidence. *)
Theorem prediction_deterministic f w1 w2 :
  outcome_map label (out (predict_income model encoders f w1))
  = outcome_map label (out (predict_income model encoders f w2))
  /\ (is_Some (predict_proba model) ->
      outcome_map confidence (out (predict_income model encoders f w1))
      = outcome_map confidence (out (predict_income model encoders f w2))).
Proof.
  destruct (predict_income_worlds f w1 w2) as [Hsame Hproba].
  split.
  - apply (f_equal (outcome_map snd)) in Hsame.
    by rewrite !outcome_map_compose in Hsame.
  - intros Hp. destruct (Hproba Hp) as [-> _]. reflexivity.
Qed.

(** Every array given to the classifier is the one row built from three
    codes and the form's weekly hours. *)
Lemma predict_income_calls f w X :
  ModelPredict X ∈ log (predict_income model encoders f w) \/
  ModelPredictProba X ∈ log (predict_income model encoders f w) ->
  exists e o n, X = [[e; o; n; hours f]].
Proof.
  unfold predict_income. rewrite run_bind.
  destruct (encode_fields_cases f)
    as [(E1 & E2 & E3 & e & o & n & _ & _ & _ & _ & _ & _ & Hrun)
       |(k & x & _ & Hrun)]; rewrite (Hrun w).
  - rewrite run_bind, run_classify.
    destruct (result_bind (predict model [[e; o; n; hours f]]) item0) as [y|x];
      [|intros [H|H]; log_cases H; exists e, o, n; congruence].
    destruct (predict_proba model) as [proba|].
    + destruct (result_bind (proba [[e; o; n; hours f]]) ndarray_max) as [c|x];
        [|intros [H|H]; log_cases H; exists e, o, n; congruence].
      rewrite run_bind, run_decode_label.
      destruct (encoders !! "income") as [E4|];
        [|intros [H|H]; log_cases H; exists e, o, n; congruence].
      destruct (LabelEncoder.decode1 E4 y);
        intros [H|H]; log_cases H; exists e, o, n; congruence.
    + rewrite run_bind, run_decode_label.
      destruct (encoders !! "income") as [E4|];
        [|intros [H|H]; log_cases H; exists e, o, n; congruence].
      destruct (LabelEncoder.decode1 E4 y);
        intros [H|H]; log_cases H; exists e, o, n; congruence.
  - unfold log. simpl.
    destruct (take_calls_cases k
                (EncoderTransform "education" [education f])
                (EncoderTransform "occupation" [occupation f])
                (EncoderTransform "native-country" [country f]))
      as [->|[->|[->| ->]]]; intros [H|H]; log_cases H.
Qed.

Lemma right_column_calls f w X :
  ModelPredict X ∈ log (right_column model encoders f w) \/
  ModelPredictProba X ∈ log (right_column model encoders f w) ->
  exists e o n, X = [[e; o; n; hours f]].
Proof.
  unfold right_column.
  destruct (submitted f && truthy (fname f) && truthy (lname f));
    [|intros [H|H]; log_cases H].
  intros [H|H]; apply log_bind_inv in H as [H|(p & w1 & l1 & _ & H)];
    try (apply (predict_income_calls f w X); auto; fail);
    log_cases H.
Qed.

(** C5: when the form was submitted with both names and one of the three
    values is outside the vocabulary of its encoder, the result column ends
    in [st.stop()] with the world untouched; all it did was call
    [transform] up to the failing value and show the encoding error: no
    feature array, no call of the classifier, no result panel. *)
Theorem unknown_value_aborts f w E1 E2 E3 :
  submitted f = true -> fname f <> "" -> lname f <> "" ->
  encoders !! "education" = Some E1 ->
  encoders !! "occupation" = Some E2 ->
  encoders !! "native-country" = Some E3 ->
  ~ known E1 (education f) \/ ~ known E2 (occupation f) \/ ~ known E3 (country f) ->
  exists k : nat,
    (1 <= k <= 3)%nat /\
    right_column model encoders f w
    = (Stop, w,
       take k [EncoderTransform "education" [education f];
               EncoderTransform "occupation" [occupation f];
               EncoderTransform "native-country" [country f]]
       ++ [StError "Encoding error: " LabelEncoder.unseen]).
Proof.
  intros Hsub Hfname%truthy_nonempty Hlname%truthy_nonempty H1 H2 H3 Hunknown.
  unfold right_column. rewrite Hsub, Hfname, Hlname. simpl.
  rewrite run_bind. unfold predict_income. rewrite run_bind.
  destruct (encode_fields_cases f)
    as [(E1' & E2' & E3' & e & o & n & H1' & H2' & H3' & HE1 & HE2 & HE3 & _)
       |(k & x & Hx & Hrun)].
  - exfalso. rewrite H1 in H1'. rewrite H2 in H2'. rewrite H3 in H3'.
    injection H1' as <-. injection H2' as <-. injection H3' as <-.
    apply encode1_Ok_known in HE1, HE2, HE3. tauto.
  - rewrite (Hrun w). destruct Hx as [[-> Hk]|(key & Hkey & _ & Hnone)].
    + by exists k.
    + exfalso. log_cases Hkey; subst; congruence.
Qed.

(** C7: when the form was not submitted, or the first or the last name is
    empty, the result column does nothing but show the placeholder panel;
    and whenever it shows the summary or the gauge, the form was submitted
    with both names. *)
Theorem missing_name_shows_placeholder f w :
  (submitted f = false \/ fname f = "" \/ lname f = "" ->
   right_column model encoders f w = (Done tt, w, [PlaceholderPanel])) /\
  (forall ev,
      ev ∈ log (right_column model encoders f w) ->
      (exists lbl colour background, ev = SummaryPanel lbl colour background) \/
      (exists value, ev = GaugeChart value) ->
      submitted f = true /\ fname f <> "" /\ lname f <> "").
Proof.
  unfold right_column. split.
  - intros [-> |[-> | ->]]; [reflexivity|by rewrite andb_false_r|by rewrite andb_false_r].
  - intros ev Hev Hpanel.
    destruct (submitted f && truthy (fname f) && truthy (lname f)) eqn:Hgate.
    + apply andb_prop in Hgate as [[Hs Hf]%andb_prop Hl].
      by rewrite <- !truthy_nonempty.
    + log_cases Hev. subst ev.
      by destruct Hpanel as [(? & ? & ? & [=])|(? & [=])].
Qed.

End ResultColumn.

(** ** The result column on the sample artifacts *)

Lemma sample_model_probabilistic : probabilistic sample_model.
Proof.
  intros proba X rows row p [= <-] [= <-] Hrow Hp.
  apply list_elem_of_singleton in Hrow as ->.
  apply elem_of_cons in Hp as [->|Hp]; [split; discriminate|].
  apply list_elem_of_singleton in Hp as ->. split; discriminate.
Qed.

Lemma sample_world_unit_samples : unit_samples sample_world.
Proof. intros n. split; [discriminate|]. unfold Qlt. simpl. lia. Qed.

Lemma sample_predict_income :
  predict_income sample_model sample_encoders sample_form sample_world
  = (Done sample_prediction, sample_world,
     [EncoderTransform "education" [Some "Masters"];
      EncoderTransform "occupation" [Some "Exec-managerial"];
      EncoderTransform "native-country" [Some "United-States"];
      ModelPredict [[2; 0; 1; 45]]; ModelPredictProba [[2; 0; 1; 45]];
      EncoderInverse "income" [1]]).
Proof. vm_compute. reflexivity. Qed.

Lemma confidence_in_unit_interval_witness :
  (0 <= confidence sample_prediction)%Q /\ (confidence sample_prediction <= 1)%Q.
Proof.
  apply (confidence_in_unit_interval sample_model sample_encoders sample_form
           sample_world sample_prediction sample_world _
           sample_model_probabilistic sample_world_unit_samples
           sample_predict_income).
Defined.

Lemma confidence_source_witness :
  exists rows,
    Ok [[(1 # 4)%Q; (3 # 4)%Q]] = Ok rows /\
    confidence sample_prediction ∈ concat rows /\
    forall q, q ∈ concat rows -> (q <= confidence sample_prediction)%Q.
Proof.
  exact (confidence_source sample_model sample_encoders sample_form
           sample_world sample_prediction sample_world _ sample_predict_income).
Defined.

Lemma feature_vector_order_witness :
  exists E1 E2 E3 e o n,
    sample_encoders !! "education" = Some E1 /\
    sample_encoders !! "occupation" = Some E2 /\
    sample_encoders !! "native-country" = Some E3 /\
    result_bind (LabelEncoder.transform E1 [education sample_form]) item0 = Ok e /\
    result_bind (LabelEncoder.transform E2 [occupation sample_form]) item0 = Ok o /\
    result_bind (LabelEncoder.transform E3 [country sample_form]) item0 = Ok n /\
    features sample_prediction = [[e; o; n; hours sample_form]] /\
    ModelPredict [[e; o; n; hours sample_form]]
      ∈ log (predict_income sample_model sample_encoders sample_form sample_world) /\
    forall X,
      ModelPredict X
        ∈ log (predict_income sample_model sample_encoders sample_form sample_world) \/
      ModelPredictProba X
        ∈ log (predict_income sample_model sample_encoders sample_form sample_world) ->
      X = [[e; o; n; hours sample_form]].
Proof.
  rewrite sample_predict_income.
  exact (feature_vector_order sample_model sample_encoders sample_form
           sample_world sample_prediction sample_world _ sample_predict_income).
Defined.

Lemma prediction_deterministic_witness :
  outcome_map confidence
    (out (predict_income sample_model sample_encoders sample_form sample_world))
  = outcome_map confidence
      (out (predict_income sample_model sample_encoders sample_form
              (set_rng_pos 7 sample_world))).
Proof.
  apply (prediction_deterministic sample_model sample_encoders sample_form
           sample_world (set_rng_pos 7 sample_world)).
  simpl. eauto.
Defined.

Lemma unknown_value_aborts_witness :
  exists k : nat,
    (1 <= k <= 3)%nat /\
    right_column sample_model sample_encoders sample_form_unknown sample_world
    = (Stop, sample_world,
       take k [EncoderTransform "education" [Some "Kindergarten"];
               EncoderTransform "occupation" [Some "Sales"];
               EncoderTransform "native-country" [Some "India"]]
       ++ [StError "Encoding error: " LabelEncoder.unseen]).
Proof.
  apply (unknown_value_aborts sample_model sample_encoders sample_form_unknown
           sample_world
           (LabelEncoder.Build ["Bachelors"; "HS-grad"; "Masters"])
           (LabelEncoder.Build ["Exec-managerial"; "Sales"])
           (LabelEncoder.Build ["India"; "United-States"]));
    try reflexivity; try discriminate.
  left. intros (s & [= <-] & Hs). log_cases Hs.
Defined.

Lemma missing_name_shows_placeholder_witness :
  right_column sample_model sample_encoders sample_form_unnamed sample_world
  = (Done tt, sample_world, [PlaceholderPanel]) /\
  (submitted sample_form = true /\ fname sample_form <> "" /\ lname sample_form <> "").
Proof.
  split.
  - apply (proj1 (missing_name_shows_placeholder sample_model sample_encoders
                    sample_form_unnamed sample_world)).
    right. left. reflexivity.
  - apply (proj2 (missing_name_shows_placeholder sample_model sample_encoders
                    sample_form sample_world)
             (GaugeChart (300 # 4)%Q)).
    + apply list_elem_of_In. vm_compute. auto 10.
    + right. eauto.
Defined.

(** ** The form *)

Lemma slider_range (lo hi value : Z) (picked : option Z) :
  lo <= value <= hi -> lo <= Widget.slider lo hi value picked <= hi.
Proof.
  intros Hv. unfold Widget.slider. destruct picked as [v|]; [|done].
  destruct (Z.leb_spec lo v), (Z.leb_spec v hi); simpl; lia.
Qed.

(** The variables a completed form block leaves behind. *)
Lemma profile_form_Done encoders b w f :
  out (profile_form encoders b w) = Done f ->
  exists E1 E2 E3,
    encoders !! "education" = Some E1 /\
    encoders !! "occupation" = Some E2 /\
    encoders !! "native-country" = Some E3 /\
    f = {| fname := typed_fname b; lname := typed_lname b;
           experience := Widget.slider 0 40 5 (picked_experience b);
           age := Widget.select_slider (py_range 18 71) 35 (picked_age b);
           education := Widget.selectbox (LabelEncoder.classes_ E1) (picked_education b);
           occupation := Widget.selectbox (LabelEncoder.classes_ E2) (picked_occupation b);
           country := Widget.selectbox (LabelEncoder.classes_ E3) (picked_country b);
           hours := Widget.slider 10 80 40 (picked_hours b);
           submitted := clicked b |}.
Proof.
  unfold profile_form, st_static, emit. rewrite !run_bind, run_dict_get.
  destruct (encoders !! "education") as [E1|]; [|discriminate].
  rewrite run_bind, run_dict_get.
  destruct (encoders !! "occupation") as [E2|]; [|discriminate].
  rewrite run_bind, run_dict_get.
  destruct (encoders !! "native-country") as [E3|]; [|discriminate].
  simpl. intros [= <-]. by exists E1, E2, E3.
Qed.

Lemma profile_form_log encoders b w :
  forall ev, ev ∈ log (profile_form encoders b w) -> exists what, ev = StStatic what.
Proof.
  unfold profile_form, st_static, emit. rewrite !run_bind, run_dict_get.
  destruct (encoders !! "education") as [E1|];
    [|intros ev Hev; log_cases Hev; subst; eauto].
  rewrite run_bind, run_dict_get.
  destruct (encoders !! "occupation") as [E2|];
    [|intros ev Hev; log_cases Hev; subst; eauto].
  rewrite run_bind, run_dict_get.
  destruct (encoders !! "native-country") as [E3|];
    intros ev Hev; log_cases Hev; subst; eauto.
Qed.

(** C10: two browser states that agree on the education, occupation and
    country picked and on the weekly hours, and differ at will in the names,
    the email, the experience and the age, give forms on which the
    prediction step builds the same feature vector and returns the same
    label, and the same confidence when the classifier has [predict_proba]. *)
Theorem unused_fields_do_not_influence model encoders b1 b2 w1 w2 f1 f2 :
  picked_education b1 = picked_education b2 ->
  picked_occupation b1 = picked_occupation b2 ->
  picked_country b1 = picked_country b2 ->
  picked_hours b1 = picked_hours b2 ->
  out (profile_form encoders b1 w1) = Done f1 ->
  out (profile_form encoders b2 w2) = Done f2 ->
  outcome_map features (out (predict_income model encoders f1 w1))
  = outcome_map features (out (predict_income model encoders f2 w2))
  /\ outcome_map label (out (predict_income model encoders f1 w1))
     = outcome_map label (out (predict_income model encoders f2 w2))
  /\ (is_Some (predict_proba model) ->
      outcome_map confidence (out (predict_income model encoders f1 w1))
      = outcome_map confidence (out (predict_income model encoders f2 w2))).
Proof.
  intros Hedu Hocc Hnat Hhours Hf1 Hf2.
  apply profile_form_Done in Hf1 as (E1 & E2 & E3 & H1 & H2 & H3 & ->).
  apply profile_form_Done in Hf2 as (E1' & E2' & E3' & H1' & H2' & H3' & ->).
  assert (E1' = E1) as -> by congruence.
  assert (E2' = E2) as -> by congruence.
  assert (E3' = E3) as -> by congruence.
  rewrite <- Hedu, <- Hocc, <- Hnat, <- Hhours.
  match goal with
  | |- context [predict_income model encoders ?g1 w1] =>
      match goal with
      | |- context [predict_income model encoders ?g2 w2] =>
          rewrite (predict_income_fields model encoders g2 g1 w2) by reflexivity;
          destruct (predict_income_worlds model encoders g1 w1 w2) as [Hsame Hproba]
      end
  end.
  split; [|split].
  - apply (f_equal (outcome_map (fun t => t.1.1))) in Hsame.
    by rewrite !outcome_map_compose in Hsame.
  - apply (f_equal (outcome_map snd)) in Hsame.
    by rewrite !outcome_map_compose in Hsame.
  - intros Hp. destruct (Hproba Hp) as [-> _]. reflexivity.
Qed.

Lemma unused_fields_do_not_influence_witness :
  outcome_map features
    (out (predict_income sample_model sample_encoders sample_form sample_world))
  = outcome_map features
      (out (predict_income sample_model sample_encoders sample_form_other
              (set_rng_pos 3 sample_world)))
  /\ outcome_map label
       (out (predict_income sample_model sample_encoders sample_form sample_world))
     = outcome_map label
         (out (predict_income sample_model sample_encoders sample_form_other
                 (set_rng_pos 3 sample_world)))
  /\ (is_Some (predict_proba sample_model) ->
      outcome_map confidence
        (out (predict_income sample_model sample_encoders sample_form sample_world))
      = outcome_map confidence
          (out (predict_income sample_model sample_encoders sample_form_other
                  (set_rng_pos 3 sample_world)))).
Proof.
  apply (unused_fields_do_not_influence sample_model sample_encoders
           sample_browser sample_browser_other
           sample_world (set_rng_pos 3 sample_world)
           sample_form sample_form_other);
    vm_compute; reflexivity.
Defined.

(** ** Fetching and loading the artifacts *)

Lemma run_download file_id path w :
  download_from_gdrive file_id path w =
    match net w (download_url file_id) with
    | None => (Raise (ConnectionError (download_url file_id)), w,
               [RequestsGet (download_url file_id)])
    | Some content =>
        if writable w path
        then (Done tt, set_fs (<[path := content]> (fs w)) w,
              [RequestsGet (download_url file_id); FileWrite path content])
        else (Raise (OSError path), w, [RequestsGet (download_url file_id)])
    end.
Proof.
  unfold download_from_gdrive. rewrite run_bind. unfold requests_get, write_file.
  destruct (net w (download_url file_id)) as [content|]; [|reflexivity].
  destruct (writable w path); reflexivity.
Qed.

Lemma is_download_other :
  is_download model_file_id (RequestsGet (download_url encoders_file_id)) = false /\
  is_download encoders_file_id (RequestsGet (download_url model_file_id)) = false.
Proof. (split; vm_compute; reflexivity). Qed.

Lemma is_download_same file_id :
  is_download file_id (RequestsGet (download_url file_id)) = true.
Proof. unfold is_download. apply bool_decide_eq_true. reflexivity. Qed.

Lemma paths_differ : model_path <> encoders_path.
Proof. discriminate. Qed.

Lemma run_fetch_if_absent path file_id w :
  fetch_if_absent path file_id w =
    if present path w then (Done tt, w, [])
    else download_from_gdrive file_id path w.
Proof.
  unfold fetch_if_absent. rewrite run_bind. unfold os_path_exists.
  destruct (present path w); simpl; [reflexivity|].
  by destruct (download_from_gdrive file_id path w) as [[o w1] l1].
Qed.

Lemma download_attempts_app file_id l1 l2 :
  download_attempts file_id (l1 ++ l2)
  = (download_attempts file_id l1 + download_attempts file_id l2)%nat.
Proof. unfold download_attempts. by rewrite List.filter_app, length_app. Qed.

(** One block: the artifact is asked for once when its file is absent and
    not at all when it is there; nothing else is asked for, and no other
    file is touched. *)
Lemma fetch_if_absent_spec path file_id w o w1 l :
  fetch_if_absent path file_id w = (o, w1, l) ->
  download_attempts file_id l = (if present path w then 0 else 1)%nat /\
  (forall other, is_download other (RequestsGet (download_url file_id)) = false ->
                 download_attempts other l = 0%nat) /\
  (forall ev, ev ∈ l ->
     (exists url, ev = RequestsGet url) \/
     (exists path' content, ev = FileWrite path' content)) /\
  (present path w = true -> w1 = w) /\
  (forall path', path <> path' -> fs w1 !! path' = fs w !! path').
Proof.
  rewrite run_fetch_if_absent, run_download.
  pose proof (is_download_same file_id) as Hsame.
  destruct (present path w).
  - intros [= <- <- <-]. repeat split; try done. intros ev Hev. log_cases Hev.
  - destruct (net w (download_url file_id)) as [content|];
      [destruct (writable w path)|]; intros [= <- <- <-];
      unfold download_attempts; cbn [List.filter]; rewrite Hsame;
      (split; [reflexivity|]);
      (split; [by intros other ->|]);
      (split; [intros ev Hev; log_cases Hev; subst; eauto|]);
      (split; [done|]); try done.
    intros path' Hne. simpl. by rewrite lookup_insert_ne.
Qed.

Lemma fetch_artifacts_spec w :
  download_attempts model_file_id (log (fetch_artifacts w))
  = (if present model_path w then 0 else 1)%nat /\
  (present encoders_path w = true ->
   download_attempts encoders_file_id (log (fetch_artifacts w)) = 0%nat) /\
  (out (fetch_artifacts w) = Done tt ->
   download_attempts encoders_file_id (log (fetch_artifacts w))
   = (if present encoders_path w then 0 else 1)%nat) /\
  (forall ev, ev ∈ log (fetch_artifacts w) ->
     (exists url, ev = RequestsGet url) \/ (exists path content, ev = FileWrite path content)) /\
  (present model_path w = true ->
   fs (world (fetch_artifacts w)) !! model_path = fs w !! model_path) /\
  (present encoders_path w = true ->
   fs (world (fetch_artifacts w)) !! encoders_path = fs w !! encoders_path).
Proof.
  destruct is_download_other as [Hme Hem].
  unfold fetch_artifacts. rewrite run_bind.
  destruct (fetch_if_absent model_path model_file_id w) as [[o1 w1] l1] eqn:Hrun1.
  apply fetch_if_absent_spec in Hrun1 as (Hn1 & Ho1 & Hk1 & Hw1 & Hfs1).
  assert (Hpres : present encoders_path w1 = present encoders_path w).
  { unfold present. by rewrite (Hfs1 encoders_path paths_differ). }
  destruct o1 as [[]| |e].
  - destruct (fetch_if_absent encoders_path encoders_file_id w1) as [[o2 w2] l2] eqn:Hrun2.
    apply fetch_if_absent_spec in Hrun2 as (Hn2 & Ho2 & Hk2 & Hw2 & Hfs2).
    unfold out, world, log. cbn [fst snd].
    rewrite !download_attempts_app, Hn1, Hn2, (Ho1 _ Hem), (Ho2 _ Hme), Hpres.
    split; [lia|]. split; [by intros ->|]. split; [done|].
    split; [intros ev [Hev|Hev]%elem_of_app; auto|].
    split.
    + intros Hm. rewrite Hfs2 by (intros Heq; apply paths_differ; symmetry; exact Heq).
      by rewrite (Hw1 Hm).
    + intros He. rewrite Hw2 by congruence. by apply Hfs1, paths_differ.
  - unfold out, world, log. cbn [fst snd]. rewrite Hn1, (Ho1 _ Hem).
    split; [done|]. split; [done|]. split; [done|]. split; [exact Hk1|].
    split; [by intros ->%Hw1|]. intros _. by apply Hfs1, paths_differ.
  - unfold out, world, log. cbn [fst snd]. rewrite Hn1, (Ho1 _ Hem).
    split; [done|]. split; [done|]. split; [done|]. split; [exact Hk1|].
    split; [by intros ->%Hw1|]. intros _. by apply Hfs1, paths_differ.
Qed.

Lemma load_artifacts_log w ev :
  ev ∈ log (load_artifacts w) ->
  (exists path content, ev = PickleLoad path content /\ fs w !! path = Some content) \/
  (exists prefix e, ev = StError prefix e).
Proof.
  unfold load_artifacts, try_except, pickle_load, st_error, st_stop, emit.
  rewrite run_bind.
  destruct (fs w !! model_path) as [c1|] eqn:H1;
    [|intros H; log_cases H; subst; eauto].
  destruct (unpickle_model w c1) as [model|];
    [|intros H; log_cases H; subst; eauto 6].
  rewrite run_bind.
  destruct (fs w !! encoders_path) as [c2|] eqn:H2;
    [|intros H; log_cases H; subst; eauto 6].
  destruct (unpickle_encoders w c2) as [encoders|];
    intros H; log_cases H; subst; eauto 6.
Qed.

Lemma download_attempts_none file_id l :
  (forall ev, ev ∈ l -> is_download file_id ev = false) ->
  download_attempts file_id l = 0%nat.
Proof.
  unfold download_attempts. induction l as [|ev l IH]; intros Hl; [reflexivity|].
  cbn [List.filter]. rewrite (Hl ev) by left. apply IH.
  intros ev' Hev'. apply Hl. by right.
Qed.

Lemma download_attempts_load file_id w pre post :
  log (load_artifacts w) = pre ++ post -> download_attempts file_id pre = 0%nat.
Proof.
  intros Hlog. apply download_attempts_none. intros ev Hev.
  assert (Hin : ev ∈ log (load_artifacts w)) by (rewrite Hlog; apply elem_of_app; auto).
  by apply load_artifacts_log in Hin
    as [(path & content & -> & _)|(prefix & e & ->)].
Qed.

(** A log that starts with [l1], in which [x] does not occur, is cut at an
    occurrence of [x] after [l1]. *)
Lemma app_eq_split {A} (x : A) (l1 l2 pre post : list A) :
  l1 ++ l2 = pre ++ x :: post ->
  x ∉ l1 ->
  exists pre', pre = l1 ++ pre' /\ l2 = pre' ++ x :: post.
Proof.
  revert pre. induction l1 as [|y l1 IH]; intros pre Heq Hx; simpl in *.
  - by exists pre.
  - destruct pre as [|z pre]; simpl in Heq.
    + injection Heq as -> _. exfalso. apply Hx. left.
    + injection Heq as -> Heq.
      destruct (IH pre Heq) as (pre' & -> & ->); [intros ?; apply Hx; by right|].
      by exists pre'.
Qed.

Lemma run_startup w :
  startup w =
    match fetch_artifacts w with
    | (Done _, w1, l1) =>
        (out (load_artifacts w1), world (load_artifacts w1), l1 ++ log (load_artifacts w1))
    | (Stop, w1, l1) => (Stop, w1, l1)
    | (Raise e, w1, l1) => (Raise e, w1, l1)
    end.
Proof.
  unfold startup. rewrite run_bind.
  destruct (fetch_artifacts w) as [[[[]| |e] w1] l1]; try reflexivity.
  by destruct (load_artifacts w1) as [[o w2] l2].
Qed.

(** C9: when a run of the start-up reaches a [pickle.load], the calls made
    before it contain exactly one request for an artifact whose file was
    absent at the start and none for an artifact whose file was there; and
    a file that was there is never requested, and is loaded with the very
    content it had. *)
Theorem artifact_downloads w :
  (forall pre path content post,
      log (startup w) = pre ++ PickleLoad path content :: post ->
      download_attempts model_file_id pre
      = (if present model_path w then 0 else 1)%nat /\
      download_attempts encoders_file_id pre
      = (if present encoders_path w then 0 else 1)%nat) /\
  (present model_path w = true ->
   download_attempts model_file_id (log (startup w)) = 0%nat /\
   forall content, PickleLoad model_path content ∈ log (startup w) ->
                   fs w !! model_path = Some content) /\
  (present encoders_path w = true ->
   download_attempts encoders_file_id (log (startup w)) = 0%nat /\
   forall content, PickleLoad encoders_path content ∈ log (startup w) ->
                   fs w !! encoders_path = Some content).
Proof.
  destruct (fetch_artifacts_spec w) as (Hm & He0 & He & Hkinds & Hfsm & Hfse).
  rewrite run_startup.
  destruct (fetch_artifacts w) as [[o1 w1] l1].
  unfold out, world, log in Hm, He0, He, Hkinds, Hfsm, Hfse. cbn [fst snd] in *.
  assert (Hnoload : forall path content, PickleLoad path content ∉ l1).
  { intros path content [(url & [=])|(p' & c' & [=])]%Hkinds. }
  destruct o1 as [[]| |e]; rewrite !log_run.
  - split; [|split].
    + intros pre path content post Hlog.
      apply app_eq_split in Hlog as (pre' & -> & Hload); [|apply Hnoload].
      rewrite !download_attempts_app, !(download_attempts_load _ _ _ _ Hload).
      rewrite Hm, (He eq_refl). lia.
    + intros Hp. split.
      * rewrite download_attempts_app, Hm, Hp.
        by rewrite (download_attempts_load _ w1 _ [] (eq_sym (app_nil_r _))).
      * intros content [Hin|Hin]%elem_of_app; [by apply Hnoload in Hin|].
        apply load_artifacts_log in Hin
          as [(path & c & [= <- <-] & Hfs)|(prefix & e & [=])].
        by rewrite <- Hfsm.
    + intros Hp. split.
      * rewrite download_attempts_app, (He0 Hp).
        by rewrite (download_attempts_load _ w1 _ [] (eq_sym (app_nil_r _))).
      * intros content [Hin|Hin]%elem_of_app; [by apply Hnoload in Hin|].
        apply load_artifacts_log in Hin
          as [(path & c & [= <- <-] & Hfs)|(prefix & e & [=])].
        by rewrite <- Hfse.
  - split; [|split].
    + intros pre path content post Hlog. exfalso.
      apply (Hnoload path content). rewrite Hlog. apply elem_of_app. right. left.
    + intros Hp. rewrite Hm, Hp. split; [done|].
      intros content Hin. by apply Hnoload in Hin.
    + intros Hp. rewrite (He0 Hp). split; [done|].
      intros content Hin. by apply Hnoload in Hin.
  - split; [|split].
    + intros pre path content post Hlog. exfalso.
      apply (Hnoload path content). rewrite Hlog. apply elem_of_app. right. left.
    + intros Hp. rewrite Hm, Hp. split; [done|].
      intros content Hin. by apply Hnoload in Hin.
    + intros Hp. rewrite (He0 Hp). split; [done|].
      intros content Hin. by apply Hnoload in Hin.
Qed.

Lemma artifact_downloads_witness :
  (download_attempts model_file_id
     [RequestsGet (download_url model_file_id); FileWrite model_path [];
      RequestsGet (download_url encoders_file_id); FileWrite encoders_path []]
   = (if present model_path sample_world then 0 else 1)%nat /\
   download_attempts encoders_file_id
     [RequestsGet (download_url model_file_id); FileWrite model_path [];
      RequestsGet (download_url encoders_file_id); FileWrite encoders_path []]
   = (if present encoders_path sample_world then 0 else 1)%nat) /\
  (download_attempts model_file_id (log (startup sample_world_cached)) = 0%nat /\
   forall content,
     PickleLoad model_path content ∈ log (startup sample_world_cached) ->
     fs sample_world_cached !! model_path = Some content) /\
  (download_attempts encoders_file_id (log (startup sample_world_cached)) = 0%nat /\
   forall content,
     PickleLoad encoders_path content ∈ log (startup sample_world_cached) ->
     fs sample_world_cached !! encoders_path = Some content).
Proof.
  split; [|split].
  - apply (proj1 (artifact_downloads sample_world) _ model_path []
             [PickleLoad encoders_path []]).
    vm_compute. reflexivity.
  - apply (proj1 (proj2 (artifact_downloads sample_world_cached))).
    vm_compute. reflexivity.
  - apply (proj2 (proj2 (artifact_downloads sample_world_cached))).
    vm_compute. reflexivity.
Defined.

(** ** The whole page *)

Lemma startup_log w ev :
  ev ∈ log (startup w) ->
  (exists url, ev = RequestsGet url) \/
  (exists path content, ev = FileWrite path content) \/
  (exists path content, ev = PickleLoad path content) \/
  (exists prefix e, ev = StError prefix e).
Proof.
  rewrite run_startup.
  destruct (fetch_artifacts_spec w) as (_ & _ & _ & Hkinds & _ & _).
  destruct (fetch_artifacts w) as [[[[]| |e] w1] l1]; rewrite log_run in *.
  - intros [Hev|Hev]%elem_of_app.
    + apply Hkinds in Hev as [?|?]; auto.
    + apply load_artifacts_log in Hev
        as [(path & content & -> & _)|(prefix & e & ->)]; eauto 8.
  - intros Hev. apply Hkinds in Hev as [?|?]; auto.
  - intros Hev. apply Hkinds in Hev as [?|?]; auto.
Qed.

(** A call of the classifier in a run of the page is made by the result
    column, on a form read from the browser. *)
Lemma jai_model_calls b w ev :
  (exists X, ev = ModelPredict X \/ ev = ModelPredictProba X) ->
  ev ∈ log (jai b w) ->
  exists model encoders f w1 w2,
    out (profile_form encoders b w1) = Done f /\
    ev ∈ log (right_column model encoders f w2).
Proof.
  intros Hcall. unfold jai, footer, st_static.
  intros [Hev|([model encoders] & w1 & l1 & _ & Hev)]%log_bind_inv.
  { exfalso. destruct Hcall as [X [-> | ->]];
      apply startup_log in Hev
        as [(? & [=])|[(? & ? & [=])|[(? & ? & [=])|(? & ? & [=])]]]. }
  apply log_bind_inv in Hev as [Hev|([] & w2 & l2 & _ & Hev)].
  { exfalso. destruct Hcall as [X [-> | ->]]; log_cases Hev. }
  apply log_bind_inv in Hev as [Hev|([] & w3 & l3 & _ & Hev)].
  { exfalso. destruct Hcall as [X [-> | ->]]; log_cases Hev. }
  apply log_bind_inv in Hev as [Hev|(f & w4 & l4 & Hform & Hev)].
  { exfalso. apply profile_form_log in Hev as [what ->].
    by destruct Hcall as [X [[=]|[=]]]. }
  apply log_bind_inv in Hev as [Hev|([] & w5 & l5 & _ & Hev)].
  - exists model, encoders, f, w3, w4. split; [by rewrite Hform|done].
  - exfalso. destruct Hcall as [X [-> | ->]]; log_cases Hev.
Qed.

(** C8: in every run of the page, every array given to the classifier
    carries as weekly hours the value of the slider, which lies between 10
    and 80 whatever was asked of the slider. *)
Theorem hours_within_slider_range b w X :
  ModelPredict X ∈ log (jai b w) \/ ModelPredictProba X ∈ log (jai b w) ->
  exists e o n h,
    X = [[e; o; n; h]] /\
    h = Widget.slider 10 80 40 (picked_hours b) /\
    10 <= h <= 80.
Proof.
  intros Hcall.
  assert (exists model encoders f w1 w2,
             out (profile_form encoders b w1) = Done f /\
             (ModelPredict X ∈ log (right_column model encoders f w2) \/
              ModelPredictProba X ∈ log (right_column model encoders f w2)))
    as (model & encoders & f & w1 & w2 & Hform & Hcol).
  { destruct Hcall as [Hev|Hev];
      apply jai_model_calls in Hev as (model & encoders & f & w1 & w2 & ? & ?);
      eauto 10. }
  apply right_column_calls in Hcol as (e & o & n & ->).
  apply profile_form_Done in Hform as (E1 & E2 & E3 & _ & _ & _ & ->).
  exists e, o, n, (Widget.slider 10 80 40 (picked_hours b)).
  split; [reflexivity|]. split; [reflexivity|]. by apply slider_range.
Qed.

Lemma hours_within_slider_range_witness :
  exists e o n h,
    [[2; 0; 1; 40]] = [[e; o; n; h]] /\
    h = Widget.slider 10 80 40 (picked_hours sample_browser_overtime) /\
    10 <= h <= 80.
Proof.
  apply (hours_within_slider_range sample_browser_overtime sample_world).
  left. apply list_elem_of_In. vm_compute.
  repeat (first [left; reflexivity | right]).
Defined.

(** ** Further properties of the script *)

(** *** The start-up *)

Lemma out_run {A} (o : outcome A) (w : World) (l : list event) : out (o, w, l) = o.
Proof. reflexivity. Qed.

Lemma world_run {A} (o : outcome A) (w : World) (l : list event) : world (o, w, l) = w.
Proof. reflexivity. Qed.

(** What one block does, case by case. *)
Lemma fetch_if_absent_cases path file_id w :
  (present path w = true /\ fetch_if_absent path file_id w = (Done tt, w, [])) \/
  (present path w = false /\
   exists content,
     net w (download_url file_id) = Some content /\ writable w path = true /\
     fetch_if_absent path file_id w
     = (Done tt, set_fs (<[path := content]> (fs w)) w,
        [RequestsGet (download_url file_id); FileWrite path content])) \/
  (present path w = false /\
   exists e,
     (e = ConnectionError (download_url file_id) \/ e = OSError path) /\
     fetch_if_absent path file_id w = (Raise e, w, [RequestsGet (download_url file_id)])).
Proof.
  rewrite run_fetch_if_absent, run_download.
  destruct (present path w); [by left|right].
  destruct (net w (download_url file_id)) as [content|]; [|right; eauto 6].
  destruct (writable w path); [left; eauto 6|right; eauto 6].
Qed.

Lemma present_insert path content w :
  present path (set_fs (<[path := content]> (fs w)) w) = true.
Proof.
  unfold present. apply bool_decide_eq_true. simpl.
  rewrite lookup_insert_eq. eauto.
Qed.

(** A block that has completed leaves its file in place, so running it
    again does nothing. *)
Lemma fetch_if_absent_again path file_id w w1 l :
  fetch_if_absent path file_id w = (Done tt, w1, l) ->
  present path w1 = true /\ fetch_if_absent path file_id w1 = (Done tt, w1, []).
Proof.
  intros Hrun.
  assert (Hp : present path w1 = true).
  { destruct (fetch_if_absent_cases path file_id w)
      as [[Hp H]|[[Hp (c & _ & _ & H)]|[Hp (e & _ & H)]]];
      rewrite H in Hrun; [| |discriminate].
    - by injection Hrun as <- _.
    - injection Hrun as <- _. apply present_insert. }
  split; [done|]. rewrite run_fetch_if_absent. by rewrite Hp.
Qed.

(** X1: once the fetching of lines 17-21 has completed, fetching again
    asks the network for nothing and changes nothing: both files are in
    place. *)
Theorem fetch_artifacts_idempotent w w1 l :
  fetch_artifacts w = (Done tt, w1, l) ->
  fetch_artifacts w1 = (Done tt, w1, []).
Proof.
  unfold fetch_artifacts. rewrite !run_bind.
  destruct (fetch_if_absent model_path model_file_id w) as [[[[]| |e] w0] l0] eqn:H1;
    [|discriminate..].
  destruct (fetch_if_absent encoders_path encoders_file_id w0) as [[o2 w2] l2] eqn:H2.
  intros [= -> -> <-].
  apply fetch_if_absent_again in H1 as [Hp1 _].
  destruct (fetch_if_absent_spec _ _ _ _ _ _ H2) as (_ & _ & _ & _ & Hfs).
  apply fetch_if_absent_again in H2 as [Hp2 H2].
  assert (Hp1' : present model_path w1 = true).
  { unfold present in *. rewrite Hfs; [done|]. intros Heq. by apply paths_differ. }
  rewrite run_fetch_if_absent, Hp1', H2. reflexivity.
Qed.

(** X2: loading never lets an exception escape.  Either both files are
    there and decode, and the two objects are returned; or the loading error
    is shown after the loads made so far and the run is stopped.  The world
    is left as it was. *)
Theorem load_artifacts_cases w :
  (exists c1 c2 model encoders,
      fs w !! model_path = Some c1 /\ unpickle_model w c1 = Some model /\
      fs w !! encoders_path = Some c2 /\ unpickle_encoders w c2 = Some encoders /\
      load_artifacts w
      = (Done (model, encoders), w,
         [PickleLoad model_path c1; PickleLoad encoders_path c2])) \/
  (exists e l,
      (forall ev, ev ∈ l -> exists path content, ev = PickleLoad path content) /\
      load_artifacts w
      = (Stop, w, l ++ [StError "Error loading model or encoders: " e])).
Proof.
  unfold load_artifacts, try_except, pickle_load, st_error, st_stop, emit.
  rewrite run_bind.
  destruct (fs w !! model_path) as [c1|] eqn:H1.
  2:{ right. exists (FileNotFoundError model_path), []. split; [|reflexivity].
      intros ev Hev. log_cases Hev. }
  destruct (unpickle_model w c1) as [model|] eqn:Hm.
  2:{ right. exists UnpicklingError, [PickleLoad model_path c1]. split; [|reflexivity].
      intros ev Hev. log_cases Hev. subst. eauto. }
  rewrite run_bind.
  destruct (fs w !! encoders_path) as [c2|] eqn:H2.
  2:{ right. exists (FileNotFoundError encoders_path), [PickleLoad model_path c1].
      split; [|reflexivity]. intros ev Hev. log_cases Hev. subst. eauto. }
  destruct (unpickle_encoders w c2) as [encoders|] eqn:He.
  2:{ right. exists UnpicklingError,
        [PickleLoad model_path c1; PickleLoad encoders_path c2].
      split; [|reflexivity]. intros ev Hev. log_cases Hev; subst; eauto. }
  left. exists c1, c2, model, encoders. repeat split; done.
Qed.

Lemma fetch_artifacts_outcome w :
  out (fetch_artifacts w) = Done tt \/
  exists e, out (fetch_artifacts w) = Raise e /\
            ((exists file_id, e = ConnectionError (download_url file_id)) \/
             (exists path, e = OSError path)).
Proof.
  unfold fetch_artifacts. rewrite run_bind.
  destruct (fetch_if_absent_cases model_path model_file_id w)
    as [[_ ->]|[[_ (c & _ & _ & ->)]|[_ (e & He & ->)]]].
  - destruct (fetch_if_absent_cases encoders_path encoders_file_id w)
      as [[_ ->]|[[_ (c & _ & _ & ->)]|[_ (e & He & ->)]]]; [by left..|].
    right. exists e. split; [done|]. destruct He as [-> | ->]; eauto.
  - destruct (fetch_if_absent_cases encoders_path encoders_file_id
                (set_fs (<[model_path := c]> (fs w)) w))
      as [[_ ->]|[[_ (c' & _ & _ & ->)]|[_ (e & He & ->)]]]; [by left..|].
    right. exists e. split; [done|]. destruct He as [-> | ->]; eauto.
  - right. exists e. split; [done|]. destruct He as [-> | ->]; eauto.
Qed.

(** X3: the start-up dies on an uncaught exception only when a download
    fails (the request raises, or the file cannot be written); nothing was
    loaded then and no error message was shown. *)
Theorem startup_raises_only_on_download w e :
  out (startup w) = Raise e ->
  ((exists file_id, e = ConnectionError (download_url file_id)) \/
   (exists path, e = OSError path)) /\
  log (startup w) = log (fetch_artifacts w) /\
  forall prefix x, StError prefix x ∉ log (startup w).
Proof.
  rewrite run_startup.
  destruct (fetch_artifacts_spec w) as (_ & _ & _ & Hkinds & _ & _).
  destruct (fetch_artifacts_outcome w) as [Hout|(e' & Hout & He')];
    destruct (fetch_artifacts w) as [[o1 w1] l1]; rewrite out_run in Hout; subst o1.
  - rewrite out_run.
    destruct (load_artifacts_cases w1) as [(?&?&?&?&_&_&_&_& ->)|(?&?&_& ->)];
      discriminate.
  - rewrite out_run, !log_run. intros [= <-]. split; [done|]. split; [done|].
    intros prefix x Hin. rewrite log_run in Hkinds.
    by apply Hkinds in Hin as [(? & [=])|(? & ? & [=])].
Qed.

(** X4: when the start-up does not complete, the page ends the way the
    start-up did, in the world it left, having made only the start-up's
    calls: no page set-up, no form, no panel, no footer. *)
Theorem failed_startup_shows_nothing_else b w :
  (forall a, out (startup w) <> Done a) ->
  jai b w = (outcome_map (fun _ => tt) (out (startup w)),
             world (startup w), log (startup w)).
Proof.
  intros Hnot. unfold jai. rewrite run_bind.
  destruct (startup w) as [[[a| |e] w1] l1]; [|reflexivity..].
  exfalso. by apply (Hnot a).
Qed.

(** X5: an artifact that was absent at the start is loaded with exactly
    the body the server returned for its URL: whatever was served is what is
    unpickled. *)
Theorem downloaded_body_is_loaded w content :
  (present model_path w = false ->
   PickleLoad model_path content ∈ log (startup w) ->
   net w (download_url model_file_id) = Some content) /\
  (present encoders_path w = false ->
   PickleLoad encoders_path content ∈ log (startup w) ->
   net w (download_url encoders_file_id) = Some content).
Proof.
  rewrite run_startup. unfold fetch_artifacts. rewrite run_bind.
  assert (Hload : forall w1 path l1,
             (forall ev, ev ∈ l1 -> (exists url, ev = RequestsGet url) \/
                                    (exists p c, ev = FileWrite p c)) ->
             PickleLoad path content ∈ l1 ++ log (load_artifacts w1) ->
             fs w1 !! path = Some content).
  { intros w1 path l1 Hl1 [Hin|Hin]%elem_of_app.
    - by apply Hl1 in Hin as [(? & [=])|(? & ? & [=])].
    - by apply load_artifacts_log in Hin as [(?&?&[= <- <-]&?)|(?&?&[=])]. }
  assert (Hnone : forall path (l1 : list event),
             (forall ev, ev ∈ l1 -> (exists url, ev = RequestsGet url) \/
                                    (exists p c, ev = FileWrite p c)) ->
             PickleLoad path content ∈ l1 -> False).
  { intros path l1 Hl1 Hin. by apply Hl1 in Hin as [(? & [=])|(? & ? & [=])]. }
  destruct (fetch_if_absent model_path model_file_id w) as [[o1 w1] l1] eqn:H1.
  pose proof (fetch_if_absent_spec _ _ _ _ _ _ H1) as (_ & _ & Hk1 & _ & Hfs1).
  destruct o1 as [[]| |e1].
  2,3: split; intros _ Hin; rewrite log_run in Hin; exfalso; eapply Hnone; eauto.
  destruct (fetch_if_absent encoders_path encoders_file_id w1) as [[o2 w2] l2] eqn:H2.
  pose proof (fetch_if_absent_spec _ _ _ _ _ _ H2) as (_ & _ & Hk2 & _ & Hfs2).
  assert (Hk : forall ev, ev ∈ l1 ++ l2 ->
             (exists url, ev = RequestsGet url) \/ (exists p c, ev = FileWrite p c)).
  { intros ev [?|?]%elem_of_app; auto. }
  destruct o2 as [[]| |e2].
  2,3: split; intros _ Hin; rewrite log_run in Hin; exfalso; eapply Hnone; eauto.
  rewrite log_run. split; intros Habsent Hin; apply Hload in Hin; try done.
  - rewrite Hfs2 in Hin by (intros Heq; apply paths_differ; by symmetry).
    destruct (fetch_if_absent_cases model_path model_file_id w)
      as [[Hp _]|[[_ (c & Hnet & _ & Hrun)]|[_ (e & _ & Hrun)]]];
      [congruence| |congruence].
    rewrite Hrun in H1. injection H1 as <- <-. simpl in Hin.
    rewrite lookup_insert_eq in Hin. congruence.
  - assert (Hp : present encoders_path w1 = false).
    { unfold present in *. by rewrite (Hfs1 encoders_path paths_differ). }
    assert (Hnet : net w1 = net w).
    { destruct (fetch_if_absent_cases model_path model_file_id w)
        as [[_ Hrun]|[[_ (c & _ & _ & Hrun)]|[_ (e & _ & Hrun)]]];
        rewrite Hrun in H1; [| |discriminate]; by injection H1 as <- <-. }
    destruct (fetch_if_absent_cases encoders_path encoders_file_id w1)
      as [[Hp' _]|[[_ (c & Hnet' & _ & Hrun)]|[_ (e & _ & Hrun)]]];
      [congruence| |congruence].
    rewrite Hrun in H2. injection H2 as <- <-. simpl in Hin.
    rewrite lookup_insert_eq in Hin. rewrite <- Hnet. congruence.
Qed.

(** *** Errors in the result column *)

Lemma out_bind {A B} (m : Script A) (k : A -> Script B) (w : World) :
  out ((m ≫= k) w) =
    match m w with
    | (Done a, w1, _) => out (k a w1)
    | (Stop, _, _) => Stop
    | (Raise e, _, _) => Raise e
    end.
Proof.
  rewrite run_bind. destruct (m w) as [[[a| |e] w1] l1]; try reflexivity.
  by destruct (k a w1) as [[o w2] l2].
Qed.

Lemma world_bind {A B} (m : Script A) (k : A -> Script B) (w : World) :
  world ((m ≫= k) w) =
    match m w with
    | (Done a, w1, _) => world (k a w1)
    | (_, w1, _) => w1
    end.
Proof.
  rewrite run_bind. destruct (m w) as [[[a| |e] w1] l1]; try reflexivity.
  by destruct (k a w1) as [[o w2] l2].
Qed.

Lemma decode1_out_of_range (enc : LabelEncoder.t) (y : Z) :
  y < 0 \/ Z.of_nat (length (LabelEncoder.classes_ enc)) <= y ->
  LabelEncoder.decode1 enc y = Err LabelEncoder.unseen.
Proof.
  intros Hy. unfold LabelEncoder.decode1.
  destruct (Z.leb_spec 0 y) as [H0|H0]; [|reflexivity].
  destruct Hy as [Hy|Hy]; [lia|].
  rewrite lookup_ge_None_2; [reflexivity|lia].
Qed.

Lemma decode1_Ok (enc : LabelEncoder.t) (y : Z) (v : string) :
  LabelEncoder.decode1 enc y = Ok v ->
  0 <= y < Z.of_nat (length (LabelEncoder.classes_ enc)) /\
  LabelEncoder.classes_ enc !! Z.to_nat y = Some v.
Proof.
  unfold LabelEncoder.decode1.
  destruct (Z.leb_spec 0 y) as [H0|H0]; [|discriminate].
  destruct (LabelEncoder.classes_ enc !! Z.to_nat y) as [v'|] eqn:Hv; [|discriminate].
  intros [= <-]. split; [|reflexivity].
  apply lookup_lt_Some in Hv. lia.
Qed.

Lemma proba_max_bounds (model : Classifier) proba X c :
  probabilistic model ->
  predict_proba model = Some proba ->
  result_bind (proba X) ndarray_max = Ok c ->
  (0 <= c)%Q /\ (c <= 1)%Q.
Proof.
  intros Hmodel Hp Hc.
  destruct (proba X) as [rows|] eqn:Hrows; [|discriminate]. simpl in Hc.
  apply ndarray_max_Ok in Hc as [Hin _].
  apply list_elem_of_In, in_concat in Hin as (row & Hrow & Hq).
  apply list_elem_of_In in Hrow, Hq.
  exact (Hmodel proba X rows row c Hp Hrows Hrow Hq).
Qed.

Section ResultColumnEdges.

Context (model : Classifier) (encoders : gmap string LabelEncoder.t).

Lemma run_right_column_open f w :
  submitted f = true -> fname f <> "" -> lname f <> "" ->
  right_column model encoders f w
  = (predict_income model encoders f ≫= render_result) w.
Proof.
  intros Hs Hf%truthy_nonempty Hl%truthy_nonempty.
  unfold right_column. by rewrite Hs, Hf, Hl.
Qed.

(** X6: when the classifier fails - [predict] raises or returns no row,
    or [predict_proba] raises or returns an empty array - the result column
    shows the prediction error after the calls made and stops: nothing is
    decoded, no panel is drawn. *)
Theorem inference_error_stops f w e o n w1 l1 x :
  submitted f = true -> fname f <> "" -> lname f <> "" ->
  encode_fields encoders f w = (Done (e, o, n), w1, l1) ->
  (result_bind (predict model [[e; o; n; hours f]]) item0 = Err x ->
   right_column model encoders f w
   = (Stop, w1,
      l1 ++ [ModelPredict [[e; o; n; hours f]]; StError "Prediction error: " x])) /\
  (forall y proba,
      result_bind (predict model [[e; o; n; hours f]]) item0 = Ok y ->
      predict_proba model = Some proba ->
      result_bind (proba [[e; o; n; hours f]]) ndarray_max = Err x ->
      right_column model encoders f w
      = (Stop, w1,
         l1 ++ [ModelPredict [[e; o; n; hours f]];
                ModelPredictProba [[e; o; n; hours f]];
                StError "Prediction error: " x])).
Proof.
  intros Hs Hf Hl Henc.
  rewrite (run_right_column_open f w Hs Hf Hl).
  rewrite run_bind. unfold predict_income.
  rewrite run_bind, Henc, run_bind, run_classify.
  split.
  - intros ->. reflexivity.
  - intros y proba -> -> ->. reflexivity.
Qed.

(** X7: decoding is not guarded.  With the income encoder missing from
    the dict, or a predicted class that is no code of its vocabulary, the
    result column dies on an uncaught exception, with no error message and
    no panel. *)
Theorem undecodable_prediction_raises f w e o n w1 l1 y c w2 l2 :
  submitted f = true -> fname f <> "" -> lname f <> "" ->
  encode_fields encoders f w = (Done (e, o, n), w1, l1) ->
  classify model [[e; o; n; hours f]] w1 = (Done (y, c), w2, l2) ->
  (encoders !! "income" = None ->
   right_column model encoders f w = (Raise (KeyError "income"), w2, l1 ++ l2)) /\
  (forall E4,
      encoders !! "income" = Some E4 ->
      y < 0 \/ Z.of_nat (length (LabelEncoder.classes_ E4)) <= y ->
      right_column model encoders f w
      = (Raise LabelEncoder.unseen, w2,
         l1 ++ l2 ++ [EncoderInverse "income" [y]])).
Proof.
  intros Hs Hf Hl Henc Hcls.
  rewrite (run_right_column_open f w Hs Hf Hl).
  rewrite run_bind. unfold predict_income.
  rewrite run_bind, Henc, run_bind, Hcls, run_bind, run_decode_label.
  split.
  - intros ->. by rewrite app_nil_r.
  - intros E4 -> Hy. by rewrite (decode1_out_of_range E4 y Hy).
Qed.

End ResultColumnEdges.

(** *** What the result column draws *)

Lemma times_100_bounds (c : Q) :
  (0 <= c)%Q -> (c <= 1)%Q -> (0 <= c * 100)%Q /\ (c * 100 <= 100)%Q.
Proof.
  destruct c as [a b]. unfold Qle, Qmult. simpl. intros H0 H1. split; lia.
Qed.

Section ResultColumnLog.

Context (model : Classifier) (encoders : gmap string LabelEncoder.t).

Lemma encode_fields_log f w ev :
  ev ∈ log (encode_fields encoders f w) -> inference_event ev.
Proof.
  destruct (encode_fields_cases encoders f)
    as [(E1 & E2 & E3 & e & o & n & _ & _ & _ & _ & _ & _ & Hrun)
       |(k & x & _ & Hrun)]; rewrite (Hrun w), log_run.
  - intros Hev. log_cases Hev; by subst.
  - destruct (take_calls_cases k
                (EncoderTransform "education" [education f])
                (EncoderTransform "occupation" [occupation f])
                (EncoderTransform "native-country" [country f]))
      as [->|[->|[->| ->]]]; intros Hev; log_cases Hev; by subst.
Qed.

Lemma classify_log X w ev :
  ev ∈ log (classify model X w) -> inference_event ev.
Proof.
  rewrite run_classify.
  destruct (result_bind (predict model X) item0) as [y|x];
    [|intros Hev; log_cases Hev; by subst].
  destruct (predict_proba model) as [proba|];
    [|intros Hev; log_cases Hev; by subst].
  destruct (result_bind (proba X) ndarray_max);
    intros Hev; log_cases Hev; by subst.
Qed.

Lemma decode_label_log y w ev :
  ev ∈ log (decode_label encoders y w) -> inference_event ev.
Proof.
  rewrite run_decode_label.
  destruct (encoders !! "income") as [E4|]; [|intros Hev; log_cases Hev].
  destruct (LabelEncoder.decode1 E4 y); intros Hev; log_cases Hev; by subst.
Qed.

(** The prediction step calls the encoders, the classifier and the
    generator and reports errors; it draws no panel. *)
Lemma predict_income_log f w ev :
  ev ∈ log (predict_income model encoders f w) -> inference_event ev.
Proof.
  unfold predict_income.
  intros [Hev|([[e o] n] & w1 & l1 & _ & Hev)]%log_bind_inv;
    [by eapply encode_fields_log|].
  apply log_bind_inv in Hev as [Hev|([y c] & w2 & l2 & _ & Hev)];
    [by eapply classify_log|].
  apply log_bind_inv in Hev as [Hev|(lbl & w3 & l3 & _ & Hev)];
    [by eapply decode_label_log|].
  log_cases Hev.
Qed.

(** What the result column draws comes from a completed prediction. *)
Lemma right_column_panels f w ev :
  ev ∈ log (right_column model encoders f w) ->
  inference_event ev \/ ev = PlaceholderPanel \/
  exists p w1 l1,
    predict_income model encoders f w = (Done p, w1, l1) /\
    (ev = SummaryPanel (label p)
            (if bool_decide (label p = ">50K") then "#34d399" else "#fbbf24")
            (if bool_decide (label p = ">50K") then "#064e3b" else "#78350f") \/
     ev = GaugeChart (confidence p * 100)%Q).
Proof.
  unfold right_column.
  destruct (submitted f && truthy (fname f) && truthy (lname f));
    [|intros Hev; log_cases Hev; auto].
  intros [Hev|(p & w1 & l1 & Hrun & Hev)]%log_bind_inv.
  - left. by eapply predict_income_log.
  - right. right. exists p, w1, l1. split; [done|].
    unfold render_result in Hev. log_cases Hev; auto.
Qed.

(** X8: every gauge drawn shows a value within its axis, 0 to 100, for a
    classifier whose estimates are probabilities and a generator with unit
    samples. *)
Theorem gauge_within_axis f w value :
  probabilistic model ->
  unit_samples w ->
  GaugeChart value ∈ log (right_column model encoders f w) ->
  (0 <= value)%Q /\ (value <= 100)%Q.
Proof.
  intros Hmodel Hrng Hev.
  apply right_column_panels in Hev
    as [[]|[[=]|(p & w1 & l1 & Hrun & [[=]|[= ->]])]].
  apply predict_income_Done in Hrun
    as (E1 & E2 & E3 & E4 & e & o & n & _ & _ & _ & _ & _ & _ & _ & _ & _ & _ & Hc).
  apply times_100_bounds.
  - destruct (predict_proba model) as [proba|] eqn:Hp.
    + destruct Hc as (Hc & _ & _). by eapply proba_max_bounds.
    + destruct Hc as (-> & _ & _). destruct (Hrng (rng_pos w)) as [H0 H1].
      destruct (uniform_range _ H0 H1) as [Hlo _].
      eapply Qle_trans; [|exact Hlo]. discriminate.
  - destruct (predict_proba model) as [proba|] eqn:Hp.
    + destruct Hc as (Hc & _ & _). by eapply proba_max_bounds.
    + destruct Hc as (-> & _ & _). destruct (Hrng (rng_pos w)) as [H0 H1].
      destruct (uniform_range _ H0 H1) as [_ Hhi].
      apply Qlt_le_weak. eapply Qlt_le_trans; [exact Hhi|]. discriminate.
Qed.

(** X9: a summary panel shows a label of the income vocabulary, in green
    (#34d399 on #064e3b) when the label is ">50K" and in amber (#fbbf24 on
    #78350f) otherwise. *)
Theorem summary_shows_vocabulary_label f w lbl colour background :
  SummaryPanel lbl colour background ∈ log (right_column model encoders f w) ->
  (exists E4, encoders !! "income" = Some E4 /\ lbl ∈ LabelEncoder.classes_ E4) /\
  ((lbl = ">50K" /\ colour = "#34d399" /\ background = "#064e3b") \/
   (lbl <> ">50K" /\ colour = "#fbbf24" /\ background = "#78350f")).
Proof.
  intros Hev.
  apply right_column_panels in Hev
    as [[]|[[=]|(p & w1 & l1 & Hrun & [[= -> -> ->]|[=]])]].
  apply predict_income_Done in Hrun
    as (E1 & E2 & E3 & E4 & e & o & n & _ & _ & _ & H4 & _ & _ & _ & _ & _ & Hlbl & _).
  split.
  - exists E4. split; [done|].
    apply decode1_Ok in Hlbl as [_ Hlbl]. apply list_elem_of_lookup. eauto.
  - destruct (bool_decide (label p = ">50K")) eqn:Hhigh.
    + apply bool_decide_eq_true in Hhigh. by left.
    + apply bool_decide_eq_false in Hhigh. by right.
Qed.

End ResultColumnLog.

(** *** The generator *)

Section Generator.

Context (model : Classifier) (encoders : gmap string LabelEncoder.t).

Lemma predict_income_generator f w :
  (world (predict_income model encoders f w) = w /\
   forall low high, RandomUniform low high ∉ log (predict_income model encoders f w)) \/
  (predict_proba model = None /\
   world (predict_income model encoders f w) = set_rng_pos (S (rng_pos w)) w /\
   RandomUniform (85 # 100) (97 # 100) ∈ log (predict_income model encoders f w)).
Proof.
  unfold predict_income. rewrite run_bind.
  destruct (encode_fields_cases encoders f)
    as [(E1 & E2 & E3 & e & o & n & _ & _ & _ & _ & _ & _ & Hrun)
       |(k & x & _ & Hrun)]; rewrite (Hrun w).
  - rewrite run_bind, run_classify.
    destruct (result_bind (predict model [[e; o; n; hours f]]) item0) as [y|x];
      [|left; split; [done|intros low high Hin; log_cases Hin]].
    destruct (predict_proba model) as [proba|].
    + left.
      destruct (result_bind (proba [[e; o; n; hours f]]) ndarray_max) as [c|x];
        [|split; [done|intros low high Hin; log_cases Hin]].
      rewrite run_bind, run_decode_label.
      destruct (encoders !! "income") as [E4|];
        [|split; [done|intros low high Hin; log_cases Hin]].
      destruct (LabelEncoder.decode1 E4 y);
        (split; [done|intros low high Hin; log_cases Hin]).
    + right. split; [done|].
      rewrite run_bind, run_decode_label.
      destruct (encoders !! "income") as [E4|]; [|split; [done|in_log]].
      destruct (LabelEncoder.decode1 E4 y); (split; [done|in_log]).
  - left. split; [done|]. intros low high. rewrite log_run.
    destruct (take_calls_cases k
                (EncoderTransform "education" [education f])
                (EncoderTransform "occupation" [occupation f])
                (EncoderTransform "native-country" [country f]))
      as [->|[->|[->| ->]]]; intros Hin; log_cases Hin.
Qed.

Lemma right_column_world f w :
  world (right_column model encoders f w) = w \/
  world (right_column model encoders f w)
  = world (predict_income model encoders f w).
Proof.
  unfold right_column.
  destruct (submitted f && truthy (fname f) && truthy (lname f)); [|by left].
  right. rewrite world_bind.
  by destruct (predict_income model encoders f w) as [[[p| |e] w1] l1].
Qed.

(** X10: with [predict_proba] the result column leaves the world as it
    was and never calls the generator; in any case it leaves the world as it
    was or with the generator advanced by one sample. *)
Theorem generator_drawn_only_without_predict_proba f w :
  (is_Some (predict_proba model) ->
   world (right_column model encoders f w) = w /\
   forall low high, RandomUniform low high ∉ log (right_column model encoders f w)) /\
  (world (right_column model encoders f w) = w \/
   world (right_column model encoders f w) = set_rng_pos (S (rng_pos w)) w).
Proof.
  split.
  - intros Hp.
    destruct (predict_income_generator f w) as [[Hw Hlog]|(Hnone & _ & _)];
      [|rewrite Hnone in Hp; by destruct Hp].
    split.
    + destruct (right_column_world f w) as [?|Heq]; [done|]. by rewrite Heq.
    + intros low high. unfold right_column.
      destruct (submitted f && truthy (fname f) && truthy (lname f));
        [|intros Hin; log_cases Hin].
      intros [Hin|(p & w1 & l1 & _ & Hin)]%log_bind_inv; [by eapply Hlog|].
      unfold render_result in Hin. log_cases Hin.
  - destruct (right_column_world f w) as [?|Heq]; [by left|]. rewrite Heq.
    destruct (predict_income_generator f w) as [[Hw _]|(_ & Hw & _)]; auto.
Qed.

End Generator.

(** *** The encoding block and the form *)

(** X11: the fields are encoded in the order education, occupation,
    country, and the block stops at the first unknown one: the later fields
    are not sent to their encoders. *)
Theorem encoding_stops_at_first_unknown encoders f w E1 E2 :
  encoders !! "education" = Some E1 ->
  encoders !! "occupation" = Some E2 ->
  (~ known E1 (education f) ->
   encode_fields encoders f w
   = (Stop, w, [EncoderTransform "education" [education f];
                StError "Encoding error: " LabelEncoder.unseen])) /\
  (known E1 (education f) -> ~ known E2 (occupation f) ->
   encode_fields encoders f w
   = (Stop, w, [EncoderTransform "education" [education f];
                EncoderTransform "occupation" [occupation f];
                StError "Encoding error: " LabelEncoder.unseen])).
Proof.
  intros H1 H2. unfold encode_fields, try_except.
  rewrite run_bind, run_encode_field, H1. split.
  - intros Hedu. by rewrite (encode1_unknown _ _ Hedu).
  - intros (s & Hs & Hin) Hocc. unfold LabelEncoder.encode1 at 1. rewrite Hs.
    destruct (index_of_elem _ _ Hin) as [i ->].
    rewrite run_bind, run_encode_field, H2.
    by rewrite (encode1_unknown _ _ Hocc).
Qed.

Lemma selectbox_known (options : list string) (picked : option nat) :
  options <> [] ->
  exists s, Widget.selectbox options picked = Some s /\ s ∈ options.
Proof.
  intros Hne. destruct options as [|s0 options]; [done|].
  unfold Widget.selectbox. destruct picked as [i|].
  - destruct ((s0 :: options) !! i) as [s|] eqn:Hi.
    + exists s. split; [done|]. apply list_elem_of_lookup. eauto.
    + exists s0. split; [done|]. left.
  - exists s0. split; [done|]. left.
Qed.



Lemma known_encode1 (enc : LabelEncoder.t) (v : pystr) :
  known enc v -> exists code, LabelEncoder.encode1 enc v = Ok code.
Proof.
  intros (s & -> & Hs). unfold LabelEncoder.encode1.
  destruct (index_of_elem _ _ Hs) as [i ->]. eauto.
Qed.

(** X12: the values a completed form hands over are encodable: when none
    of the three vocabularies is empty, the encoding block, run on the
    form's variables in any world, returns three codes. *)
Theorem form_values_encode encoders b w f :
  out (profile_form encoders b w) = Done f ->
  (forall key enc, key ∈ ["education"; "occupation"; "native-country"] ->
                   encoders !! key = Some enc -> LabelEncoder.classes_ enc <> []) ->
  exists e o n,
    forall w', encode_fields encoders f w'
               = (Done (e, o, n), w',
                  [EncoderTransform "education" [education f];
                   EncoderTransform "occupation" [occupation f];
                   EncoderTransform "native-country" [country f]]).
Proof.
  intros Hform Hvocab.
  apply profile_form_Done in Hform as (E1 & E2 & E3 & H1 & H2 & H3 & ->). simpl.
  assert (Hk1 : known E1 (Widget.selectbox (LabelEncoder.classes_ E1) (picked_education b))).
  { apply selectbox_known. apply (Hvocab "education"); [in_log|done]. }
  assert (Hk2 : known E2 (Widget.selectbox (LabelEncoder.classes_ E2) (picked_occupation b))).
  { apply selectbox_known. apply (Hvocab "occupation"); [in_log|done]. }
  assert (Hk3 : known E3 (Widget.selectbox (LabelEncoder.classes_ E3) (picked_country b))).
  { apply selectbox_known. apply (Hvocab "native-country"); [in_log|done]. }
  apply known_encode1 in Hk1 as [e He], Hk2 as [o Ho], Hk3 as [n Hn].
  exists e, o, n. intros w'. unfold encode_fields, try_except. simpl.
  rewrite run_bind, run_encode_field, H1, He.
  rewrite run_bind, run_encode_field, H2, Ho.
  rewrite run_bind, run_encode_field, H3, Hn. reflexivity.
Qed.


(** X14: the form block either completes, having drawn its card and left
    the world alone, or dies on the first of the three encoders that is
    missing from the dict, with an uncaught [KeyError], before the card is
    closed. *)
Theorem profile_form_cases encoders b w :
  (exists f, profile_form encoders b w
             = (Done f, w, [StStatic "<div class='card'>"; StStatic "Personal Profile";
                            StStatic "</div>"])) \/
  (exists key, key ∈ ["education"; "occupation"; "native-country"] /\
               encoders !! key = None /\
               profile_form encoders b w
               = (Raise (KeyError key), w,
                  [StStatic "<div class='card'>"; StStatic "Personal Profile"])).
Proof.
  unfold profile_form, st_static, emit. rewrite !run_bind, run_dict_get.
  destruct (encoders !! "education") as [E1|] eqn:H1;
    [|right; exists "education"; split; [in_log|by split]].
  rewrite run_bind, run_dict_get.
  destruct (encoders !! "occupation") as [E2|] eqn:H2;
    [|right; exists "occupation"; split; [in_log|by split]].
  rewrite run_bind, run_dict_get.
  destruct (encoders !! "native-country") as [E3|] eqn:H3;
    [|right; exists "native-country"; split; [in_log|by split]].
  left. eexists. reflexivity.
Qed.

(** *** The whole page, step by step *)

(** The page, step by step. *)
Lemma run_jai b w :
  jai b w =
    match startup w with
    | (Done (model, encoders), w1, l1) =>
        match profile_form encoders b w1 with
        | (Done f, w2, l2) =>
            match right_column model encoders f w2 with
            | (Done _, w3, l3) =>
                (Done tt, w3,
                 l1 ++ StStatic "set_page_config" :: StStatic "<style>"
                    :: l2 ++ l3 ++ [StStatic "---"; StStatic "Model Insights";
                                    StStatic "- **Education Impact** ..."])
            | (Stop, w3, l3) =>
                (Stop, w3,
                 l1 ++ StStatic "set_page_config" :: StStatic "<style>" :: l2 ++ l3)
            | (Raise e, w3, l3) =>
                (Raise e, w3,
                 l1 ++ StStatic "set_page_config" :: StStatic "<style>" :: l2 ++ l3)
            end
        | (Stop, w2, l2) =>
            (Stop, w2, l1 ++ StStatic "set_page_config" :: StStatic "<style>" :: l2)
        | (Raise e, w2, l2) =>
            (Raise e, w2, l1 ++ StStatic "set_page_config" :: StStatic "<style>" :: l2)
        end
    | (Stop, w1, l1) => (Stop, w1, l1)
    | (Raise e, w1, l1) => (Raise e, w1, l1)
    end.
Proof.
  unfold jai. rewrite run_bind.
  destruct (startup w) as [[[[model encoders]| |e] w1] l1]; [|reflexivity..].
  unfold st_static, emit. rewrite !run_bind.
  destruct (profile_form encoders b w1) as [[[f| |e] w2] l2]; [|reflexivity..].
  rewrite run_bind.
  destruct (right_column model encoders f w2) as [[[[]| |e] w3] l3]; reflexivity.
Qed.

Lemma right_column_no_static model encoders f w what :
  StStatic what ∉ log (right_column model encoders f w).
Proof.
  intros Hin.
  by apply right_column_panels in Hin
    as [[]|[[=]|(p & w1 & l1 & _ & [[=]|[=]])]].
Qed.

Lemma startup_no_static w what : StStatic what ∉ log (startup w).
Proof.
  intros Hin.
  by apply startup_log in Hin
    as [(? & [=])|[(? & ? & [=])|[(? & ? & [=])|(? & ? & [=])]]].
Qed.

Lemma profile_form_no_footer encoders b w :
  StStatic "Model Insights" ∉ log (profile_form encoders b w).
Proof.
  destruct (profile_form_cases encoders b w) as [(f & ->)|(key & _ & _ & ->)];
    intros Hin; log_cases Hin.
Qed.

(** X15: the footer is drawn exactly when the page runs to completion: a
    stop or an uncaught exception anywhere before it suppresses it. *)
Theorem footer_iff_page_completed b w :
  StStatic "Model Insights" ∈ log (jai b w) <-> out (jai b w) = Done tt.
Proof.
  rewrite run_jai.
  pose proof (startup_no_static w "Model Insights") as Hl1.
  destruct (startup w) as [[[[model encoders]| |e] w1] l1];
    rewrite log_run in Hl1; [|by split..].
  pose proof (profile_form_no_footer encoders b w1) as Hl2.
  destruct (profile_form encoders b w1) as [[[f| |e] w2] l2];
    rewrite log_run in Hl2.
  2,3: rewrite log_run, out_run; split; [|done];
       intros [?|Hin]%elem_of_app; [done|]; log_cases Hin;
       by apply list_elem_of_In in Hin.
  pose proof (right_column_no_static model encoders f w2 "Model Insights") as Hl3.
  destruct (right_column model encoders f w2) as [[[[]| |e] w3] l3];
    rewrite log_run in Hl3; rewrite log_run, out_run.
  - split; [done|]. intros _. apply elem_of_app. right.
    do 2 right. apply elem_of_app. right. apply elem_of_app. right. in_log.
  - split; [|done]. intros [?|Hin]%elem_of_app; [done|].
    apply elem_of_cons in Hin as [[=]|Hin].
    apply elem_of_cons in Hin as [[=]|Hin].
    by apply elem_of_app in Hin as [?|?].
  - split; [|done]. intros [?|Hin]%elem_of_app; [done|].
    apply elem_of_cons in Hin as [[=]|Hin].
    apply elem_of_cons in Hin as [[=]|Hin].
    by apply elem_of_app in Hin as [?|?].
Qed.

Lemma startup_world w :
  (forall path, path <> model_path -> path <> encoders_path ->
                fs (world (startup w)) !! path = fs w !! path) /\
  (present model_path w = true -> present encoders_path w = true ->
   world (startup w) = w).
Proof.
  rewrite run_startup. unfold fetch_artifacts. rewrite run_bind.
  destruct (fetch_if_absent model_path model_file_id w) as [[o1 w1] l1] eqn:H1.
  pose proof (fetch_if_absent_spec _ _ _ _ _ _ H1) as (_ & _ & _ & Hw1 & Hfs1).
  assert (Hload : forall w', world (load_artifacts w') = w').
  { intros w'.
    by destruct (load_artifacts_cases w') as [(?&?&?&?&_&_&_&_& ->)|(?&?&_& ->)]. }
  destruct o1 as [[]| |e1].
  - destruct (fetch_if_absent encoders_path encoders_file_id w1) as [[o2 w2] l2] eqn:H2.
    pose proof (fetch_if_absent_spec _ _ _ _ _ _ H2) as (_ & _ & _ & Hw2 & Hfs2).
    assert (Hworld : world (match o2 with
                            | Done _ => (out (load_artifacts w2), world (load_artifacts w2),
                                         (l1 ++ l2) ++ log (load_artifacts w2))
                            | Stop => (Stop, w2, l1 ++ l2)
                            | Raise e => (Raise e, w2, l1 ++ l2)
                            end) = w2).
    { destruct o2; rewrite world_run; [apply Hload|done..]. }
    rewrite Hworld. split.
    + intros path Hm He. rewrite Hfs2 by done. by apply Hfs1.
    + intros Hm He. rewrite <- (Hw1 Hm) in He. rewrite (Hw2 He). by apply Hw1.
  - rewrite world_run. split; [intros path Hm _; by apply Hfs1|by intros Hm%Hw1 _].
  - rewrite world_run. split; [intros path Hm _; by apply Hfs1|by intros Hm%Hw1 _].
Qed.

Lemma right_column_fs model encoders f w :
  fs (world (right_column model encoders f w)) = fs w.
Proof.
  destruct (right_column_world model encoders f w) as [-> | ->]; [done|].
  by destruct (predict_income_generator model encoders f w) as [[-> _]|(_ & -> & _)].
Qed.

Lemma jai_world_fs b w : fs (world (jai b w)) = fs (world (startup w)).
Proof.
  rewrite run_jai.
  destruct (startup w) as [[[[model encoders]| |e] w1] l1]; [|reflexivity..].
  rewrite world_run.
  pose proof (profile_form_cases encoders b w1) as Hform.
  destruct (profile_form encoders b w1) as [[[f| |e] w2] l2].
  - assert (w2 = w1) as ->.
    { destruct Hform as [(? & Heq)|(? & _ & _ & Heq)]; congruence. }
    pose proof (right_column_fs model encoders f w1) as Hfs.
    by destruct (right_column model encoders f w1) as [[[[]| |e] w3] l3].
  - destruct Hform as [(? & Heq)|(? & _ & _ & Heq)]; congruence.
  - destruct Hform as [(? & Heq)|(? & _ & _ & Heq)]; [congruence|].
    rewrite world_run. congruence.
Qed.

(** X16: the page touches no file but the two artifacts, and no file at
    all when both were in place at the start. *)
Theorem page_writes_only_artifacts b w :
  (forall path, path <> model_path -> path <> encoders_path ->
                fs (world (jai b w)) !! path = fs w !! path) /\
  (present model_path w = true -> present encoders_path w = true ->
   fs (world (jai b w)) = fs w).
Proof.
  rewrite jai_world_fs. destruct (startup_world w) as [Hother Hcached]. split.
  - exact Hother.
  - intros Hm He. by rewrite (Hcached Hm He).
Qed.

(** X17: when the button was not pressed or a name was left empty, a page
    whose start-up completed, with the three encoders in the dict, draws the
    page set-up, the form card, the placeholder and the footer and does
    nothing else: no encoder, classifier or generator is called. *)
Theorem idle_page_only_draws b w model encoders w1 l1 :
  startup w = (Done (model, encoders), w1, l1) ->
  is_Some (encoders !! "education") ->
  is_Some (encoders !! "occupation") ->
  is_Some (encoders !! "native-country") ->
  clicked b = false \/ typed_fname b = "" \/ typed_lname b = "" ->
  jai b w
  = (Done tt, w1,
     l1 ++ [StStatic "set_page_config"; StStatic "<style>";
            StStatic "<div class='card'>"; StStatic "Personal Profile";
            StStatic "</div>"; PlaceholderPanel;
            StStatic "---"; StStatic "Model Insights";
            StStatic "- **Education Impact** ..."]).
Proof.
  intros Hstart [E1 H1] [E2 H2] [E3 H3] Hidle.
  rewrite run_jai, Hstart.
  destruct (profile_form_cases encoders b w1) as [(f & Hform)|(key & Hkey & Hnone & _)].
  2:{ exfalso. log_cases Hkey; subst; congruence. }
  rewrite Hform.
  assert (Hf : out (profile_form encoders b w1) = Done f) by by rewrite Hform.
  apply profile_form_Done in Hf as (E1' & E2' & E3' & _ & _ & _ & ->).
  unfold right_column, Widget.form_submit_button, Widget.text_input. simpl.
  destruct Hidle as [-> |[-> | ->]]; [reflexivity|by rewrite andb_false_r..].
Qed.

(** *** These properties on the sample artifacts *)

Lemma fetch_artifacts_idempotent_witness :
  fetch_artifacts (world (fetch_artifacts sample_world))
  = (Done tt, world (fetch_artifacts sample_world), []).
Proof.
  apply (fetch_artifacts_idempotent sample_world _
           (log (fetch_artifacts sample_world))).
  vm_compute. reflexivity.
Defined.

Lemma downloaded_body_is_loaded_witness :
  net sample_world (download_url model_file_id) = Some [] /\
  net sample_world (download_url encoders_file_id) = Some [].
Proof.
  split.
  - apply (proj1 (downloaded_body_is_loaded sample_world [])); [reflexivity|].
    apply list_elem_of_In. vm_compute. auto 10.
  - apply (proj2 (downloaded_body_is_loaded sample_world [])); [reflexivity|].
    apply list_elem_of_In. vm_compute. auto 10.
Defined.

Lemma startup_raises_only_on_download_witness :
  ((exists file_id, ConnectionError (download_url model_file_id)
                    = ConnectionError (download_url file_id)) \/
   (exists path, ConnectionError (download_url model_file_id) = OSError path)) /\
  log (startup sample_world_offline) = log (fetch_artifacts sample_world_offline) /\
  forall prefix x, StError prefix x ∉ log (startup sample_world_offline).
Proof.
  apply (startup_raises_only_on_download sample_world_offline).
  vm_compute. reflexivity.
Defined.

Lemma failed_startup_shows_nothing_else_witness :
  jai sample_browser sample_world_corrupt
  = (Stop, sample_world_corrupt,
     [PickleLoad model_path [Byte.x3c; Byte.x68];
      StError "Error loading model or encoders: " UnpicklingError]).
Proof.
  rewrite (failed_startup_shows_nothing_else sample_browser sample_world_corrupt).
  - vm_compute. reflexivity.
  - intros a. vm_compute. discriminate.
Defined.

Lemma form_values_encode_witness :
  exists e o n,
    forall w', encode_fields sample_encoders sample_form w'
               = (Done (e, o, n), w',
                  [EncoderTransform "education" [education sample_form];
                   EncoderTransform "occupation" [occupation sample_form];
                   EncoderTransform "native-country" [country sample_form]]).
Proof.
  apply (form_values_encode sample_encoders sample_browser sample_world sample_form).
  - vm_compute. reflexivity.
  - intros key enc Hkey Henc. log_cases Hkey; subst key;
      vm_compute in Henc; injection Henc as <-; discriminate.
Defined.


Lemma encoding_stops_at_first_unknown_witness :
  encode_fields sample_encoders sample_form_unknown sample_world
  = (Stop, sample_world,
     [EncoderTransform "education" [education sample_form_unknown];
      StError "Encoding error: " LabelEncoder.unseen]) /\
  encode_fields sample_encoders sample_form_unknown_occupation sample_world
  = (Stop, sample_world,
     [EncoderTransform "education" [education sample_form_unknown_occupation];
      EncoderTransform "occupation" [occupation sample_form_unknown_occupation];
      StError "Encoding error: " LabelEncoder.unseen]).
Proof.
  split.
  - apply (proj1 (encoding_stops_at_first_unknown sample_encoders sample_form_unknown
                    sample_world
                    (LabelEncoder.Build ["Bachelors"; "HS-grad"; "Masters"])
                    (LabelEncoder.Build ["Exec-managerial"; "Sales"])
                    eq_refl eq_refl)).
    intros (s & [= <-] & Hs). log_cases Hs.
  - apply (proj2 (encoding_stops_at_first_unknown sample_encoders
                    sample_form_unknown_occupation sample_world
                    (LabelEncoder.Build ["Bachelors"; "HS-grad"; "Masters"])
                    (LabelEncoder.Build ["Exec-managerial"; "Sales"])
                    eq_refl eq_refl)).
    + exists "Masters". split; [reflexivity|in_log].
    + intros (s & [= <-] & Hs). log_cases Hs.
Defined.

Lemma inference_error_stops_witness :
  right_column sample_model_mismatch sample_encoders sample_form sample_world
  = (Stop, sample_world,
     [EncoderTransform "education" [Some "Masters"];
      EncoderTransform "occupation" [Some "Exec-managerial"];
      EncoderTransform "native-country" [Some "United-States"]]
     ++ [ModelPredict [[2; 0; 1; hours sample_form]];
         StError "Prediction error: "
           (ModelError "X has 4 features, but the model expects 5")]) /\
  right_column sample_model_empty_proba sample_encoders sample_form sample_world
  = (Stop, sample_world,
     [EncoderTransform "education" [Some "Masters"];
      EncoderTransform "occupation" [Some "Exec-managerial"];
      EncoderTransform "native-country" [Some "United-States"]]
     ++ [ModelPredict [[2; 0; 1; hours sample_form]];
         ModelPredictProba [[2; 0; 1; hours sample_form]];
         StError "Prediction error: "
           (ValueError "zero-size array to reduction operation maximum")]).
Proof.
  split.
  - apply (proj1 (inference_error_stops sample_model_mismatch sample_encoders
                    sample_form sample_world 2 0 1 sample_world _ _
                    eq_refl ltac:(discriminate) ltac:(discriminate) eq_refl)).
    reflexivity.
  - apply (proj2 (inference_error_stops sample_model_empty_proba sample_encoders
                    sample_form sample_world 2 0 1 sample_world _ _
                    eq_refl ltac:(discriminate) ltac:(discriminate) eq_refl)
             1 (fun _ => Ok [])); reflexivity.
Defined.

Lemma undecodable_prediction_raises_witness :
  right_column sample_model sample_encoders_no_income sample_form sample_world
  = (Raise (KeyError "income"), sample_world,
     [EncoderTransform "education" [Some "Masters"];
      EncoderTransform "occupation" [Some "Exec-managerial"];
      EncoderTransform "native-country" [Some "United-States"]]
     ++ [ModelPredict [[2; 0; 1; 45]]; ModelPredictProba [[2; 0; 1; 45]]]) /\
  right_column sample_model_three_classes sample_encoders sample_form sample_world
  = (Raise LabelEncoder.unseen, set_rng_pos 1 sample_world,
     [EncoderTransform "education" [Some "Masters"];
      EncoderTransform "occupation" [Some "Exec-managerial"];
      EncoderTransform "native-country" [Some "United-States"]]
     ++ [ModelPredict [[2; 0; 1; 45]]; RandomUniform (85 # 100) (97 # 100)]
     ++ [EncoderInverse "income" [2]]).
Proof.
  split.
  - apply (proj1 (undecodable_prediction_raises sample_model sample_encoders_no_income
                    sample_form sample_world 2 0 1 sample_world _ 1 (3 # 4)%Q
                    sample_world _
                    eq_refl ltac:(discriminate) ltac:(discriminate) eq_refl eq_refl)).
    reflexivity.
  - apply (proj2 (undecodable_prediction_raises sample_model_three_classes
                    sample_encoders sample_form sample_world 2 0 1 sample_world _ 2
                    ((85 # 100) + ((97 # 100) - (85 # 100)) * (1 # 2))%Q
                    (set_rng_pos 1 sample_world) _
                    eq_refl ltac:(discriminate) ltac:(discriminate) eq_refl eq_refl)
             (LabelEncoder.Build ["<=50K"; ">50K"])); [reflexivity|].
    right. simpl. lia.
Defined.

Lemma gauge_within_axis_witness : (0 <= 300 # 4)%Q /\ (300 # 4 <= 100)%Q.
Proof.
  apply (gauge_within_axis sample_model sample_encoders sample_form sample_world
           (300 # 4)%Q sample_model_probabilistic sample_world_unit_samples).
  apply list_elem_of_In. vm_compute. auto 10.
Defined.

Lemma summary_shows_vocabulary_label_witness :
  (exists E4, sample_encoders !! "income" = Some E4 /\
              ">50K" ∈ LabelEncoder.classes_ E4) /\
  ((">50K" = ">50K" /\ "#34d399" = "#34d399" /\ "#064e3b" = "#064e3b") \/
   (">50K" <> ">50K" /\ "#34d399" = "#fbbf24" /\ "#064e3b" = "#78350f")).
Proof.
  apply (summary_shows_vocabulary_label sample_model sample_encoders sample_form
           sample_world).
  apply list_elem_of_In. vm_compute. auto 10.
Defined.

Lemma generator_drawn_only_without_predict_proba_witness :
  world (right_column sample_model sample_encoders sample_form sample_world)
  = sample_world /\
  forall low high,
    RandomUniform low high
    ∉ log (right_column sample_model sample_encoders sample_form sample_world).
Proof.
  apply (proj1 (generator_drawn_only_without_predict_proba sample_model
                  sample_encoders sample_form sample_world)).
  simpl. eauto.
Defined.

Lemma footer_iff_page_completed_witness :
  StStatic "Model Insights" ∈ log (jai sample_browser sample_world) /\
  out (jai sample_browser sample_world_corrupt) <> Done tt.
Proof.
  split.
  - apply (proj2 (footer_iff_page_completed sample_browser sample_world)).
    vm_compute. reflexivity.
  - intros Hdone.
    apply (proj2 (footer_iff_page_completed sample_browser sample_world_corrupt))
      in Hdone.
    apply list_elem_of_In in Hdone. vm_compute in Hdone. intuition discriminate.
Defined.

Lemma page_writes_only_artifacts_witness :
  fs (world (jai sample_browser sample_world)) !! "notes.txt"
  = fs sample_world !! "notes.txt" /\
  fs (world (jai sample_browser sample_world_cached)) = fs sample_world_cached.
Proof.
  split.
  - apply (proj1 (page_writes_only_artifacts sample_browser sample_world));
      discriminate.
  - apply (proj2 (page_writes_only_artifacts sample_browser sample_world_cached));
      reflexivity.
Defined.

Lemma idle_page_only_draws_witness :
  jai sample_browser_idle sample_world_cached
  = (Done tt, sample_world_cached,
     [PickleLoad model_path [Byte.x80; Byte.x04];
      PickleLoad encoders_path [Byte.x80; Byte.x04; Byte.x95]]
     ++ [StStatic "set_page_config"; StStatic "<style>";
         StStatic "<div class='card'>"; StStatic "Personal Profile";
         StStatic "</div>"; PlaceholderPanel;
         StStatic "---"; StStatic "Model Insights";
         StStatic "- **Education Impact** ..."]).
Proof.
  apply (idle_page_only_draws sample_browser_idle sample_world_cached
           sample_model sample_encoders).
  - vm_compute. reflexivity.
  - vm_compute. eauto.
  - vm_compute. eauto.
  - vm_compute. eauto.
  - left. reflexivity.
Defined.

(** ** Sample runs *)

(** A first visit: both artifacts are fetched and loaded, the form is read
    and the prediction is shown. *)
Example first_run :
  let r := jai sample_browser sample_world in
  out r = Done tt /\
  log r =
    [RequestsGet (download_url model_file_id); FileWrite model_path [];
     RequestsGet (download_url encoders_file_id); FileWrite encoders_path [];
     PickleLoad model_path []; PickleLoad encoders_path [];
     StStatic "set_page_config"; StStatic "<style>";
     StStatic "<div class='card'>"; StStatic "Personal Profile"; StStatic "</div>";
     EncoderTransform "education" [Some "Masters"];
     EncoderTransform "occupation" [Some "Exec-managerial"];
     EncoderTransform "native-country" [Some "United-States"];
     ModelPredict [[2; 0; 1; 45]]; ModelPredictProba [[2; 0; 1; 45]];
     EncoderInverse "income" [1];
     SummaryPanel ">50K" "#34d399" "#064e3b"; GaugeChart (300 # 4);
     StStatic "---"; StStatic "Model Insights";
     StStatic "- **Education Impact** ..."].
Proof. vm_compute. split; reflexivity. Qed.

(** A later visit: nothing is fetched. *)
Example cached_run :
  take 3 (log (jai sample_browser sample_world_cached))
  = [PickleLoad model_path [Byte.x80; Byte.x04];
     PickleLoad encoders_path [Byte.x80; Byte.x04; Byte.x95];
     StStatic "set_page_config"].
Proof. vm_compute. reflexivity. Qed.

(** The scenario of the specification: Bachelors, Exec-managerial,
    United-States, 45 hours. *)
Example bachelors_scenario :
  out (predict_income sample_model sample_encoders
         {| fname := "Ada"; lname := "Lovelace"; experience := 5; age := 35;
            education := Some "Bachelors"; occupation := Some "Exec-managerial";
            country := Some "United-States"; hours := 45; submitted := true |}
         sample_world)
  = Done {| features := [[0; 0; 1; 45]]; prediction := 1;
            confidence := (3 # 4)%Q; label := ">50K" |}.
Proof. vm_compute. reflexivity. Qed.

(** Without [predict_proba] the confidence follows the generator: the
    same form gives 0.91 at position 0 and 0.89 at position 1. *)
Example confidence_follows_generator :
  outcome_map confidence
    (out (predict_income sample_model_no_proba sample_encoders sample_form
            sample_world))
  = Done ((85 # 100) + ((97 # 100) - (85 # 100)) * (1 # 2))%Q /\
  outcome_map confidence
    (out (predict_income sample_model_no_proba sample_encoders sample_form
            (set_rng_pos 1 sample_world)))
  = Done ((85 # 100) + ((97 # 100) - (85 # 100)) * (1 # 3))%Q.
Proof. split; reflexivity. Qed.

(** The hours slider: a value of the range is taken, any other is
    rejected. *)
Example slider_samples :
  Widget.slider 10 80 40 (Some 45) = 45 /\
  Widget.slider 10 80 40 (Some 9) = 40 /\
  Widget.slider 10 80 40 (Some 81) = 40 /\
  Widget.slider 10 80 40 None = 40.
Proof. repeat split. Qed.
